(** * GoogleScraper: a shallow embedding of [scraper.py]

    The script drives a browser through Selenium, collects the search
    results of one page into [self.results] and writes them to a CSV
    file through pandas.  The browser, the terminal and the file system
    are outside the program: they are modelled as an environment whose
    answers are arbitrary, and every call the program makes to them is
    recorded in a trace.  Python exceptions are explicit: a computation
    either returns a value or raises. *)

From Stdlib Require Import ZArith String Ascii List Bool Lia.
From stdpp Require Import base option list gmap strings pretty.

Local Open Scope string_scope.
Local Open Scope list_scope.
Local Open Scope Z_scope.

(** ** Python exceptions *)

Module Py.

(** The exception classes the script names or can meet.  Selenium's
    exceptions all derive from [WebDriverException]; what [open] and
    the csv writer raise derives from [OSError]; [int] raises
    [ValueError].  [BaseException]s that are not [Exception]s
    (KeyboardInterrupt, SystemExit) are signals, not errors of a call,
    and are not modelled. *)
Inductive exn_class : Set :=
| Exception
| ValueError
| OSError
| WebDriverException
| NoSuchElementException
| StaleElementReferenceException
| TimeoutException.

#[global] Instance exn_class_eq_dec : EqDecision exn_class.
Proof. solve_decision. Defined.

(** Direct base class. *)
Definition base (c : exn_class) : option exn_class :=
  match c with
  | Exception => None
  | ValueError | OSError | WebDriverException => Some Exception
  | NoSuchElementException | StaleElementReferenceException
  | TimeoutException => Some WebDriverException
  end.

(** The class and its ancestors, nearest first. *)
Definition mro (c : exn_class) : list exn_class :=
  c :: match base c with
       | None => []
       | Some b => b :: match base b with
                        | None => []
                        | Some b' => [b']
                        end
       end.

Definition issubclass (c d : exn_class) : bool := bool_decide (d ∈ mro c).

(** An exception object: its class and what [str(e)] prints. *)
Record exn : Set := mkExn { class_of : exn_class; str : string }.

Definition isinstance (e : exn) (c : exn_class) : bool :=
  issubclass (class_of e) c.

(** What a call gives back. *)
Inductive outcome (A : Type) : Type :=
| Ok (a : A)
| Raise (e : exn).
#[global] Arguments Ok {A} a.
#[global] Arguments Raise {A} e.

(** Truth value of a [str], and of a value that is a [str] or [None]. *)
Definition truthy (s : string) : bool := negb (String.eqb s "").
Definition truthy_opt (o : option string) : bool :=
  match o with
  | None => false
  | Some s => truthy s
  end.

(** [range(n)]: empty when [n <= 0]. *)
Definition range (n : Z) : list nat := seq 0 (Z.to_nat n).

End Py.
Export Py.

(** ** Selenium, as the script sees it *)

Inductive By : Set := TAG_NAME | CSS_SELECTOR.

(** [Keys.END] is the private-use code point U+E010; here, its UTF-8
    bytes EE 80 90.  (U+E011, one further, is [Keys.HOME].) *)
Definition Keys_END : string :=
  String (ascii_of_nat 238) (String (ascii_of_nat 128)
    (String (ascii_of_nat 144) EmptyString)).

(** An element handle.  Each access is a round trip to the browser and
    may raise; [find_element] raises [NoSuchElementException] when
    nothing matches, [get_attribute] returns [None] when the attribute
    is absent. *)
#[warnings="-register-all"]
Inductive WebElement : Type := mkWebElement {
  text : outcome string;
  get_attribute : string -> outcome (option string);
  send_keys : string -> outcome unit;
  find_element : By -> string -> outcome WebElement
}.

(** ** The outside world *)

(** Calls that leave the program, in the order they are made. *)
Inductive event : Type :=
| Print (line : string)
| Input (prompt : string)
| Sleep (seconds : nat)
| DriverGet (url : string)
| DriverFindElement (by_ : By) (value : string)
| DriverFindElements (by_ : By) (value : string)
| SendKeys (keys : string)
| DriverQuit
| ToCsv (file_name : string) (content : string).

(** The browser session.  What a call answers may depend on everything
    done so far (the page after two scrolls is not the page after one;
    a session that was quit answers with an error). *)
Record WebDriver : Type := mkWebDriver {
  driver_get : list event -> string -> outcome unit;
  driver_find_element : list event -> By -> string -> outcome WebElement;
  driver_find_elements :
    list event -> By -> string -> outcome (list WebElement)
}.

(** ** The scraper object and the process state *)

(** One entry of [self.results]: the dict with keys Title, URL and
    Description, in that order. *)
Record SearchResult : Set := mkSearchResult {
  Title : string;
  URL : string;
  Description : string
}.

Record GoogleScraper : Type := mkGoogleScraper {
  query : string;
  num_scrolls : Z;
  results : list SearchResult;
  driver : WebDriver
}.

(** [files] maps a path to its content.  [open_error] tells for which
    paths opening for writing fails, and how; the file is then left as
    it was.  [write_error] tells for which paths writing fails once the
    file is open, after how many bytes and how; the file, truncated
    when it was opened, then holds those bytes. *)
Record State : Type := mkState {
  self : GoogleScraper;
  trace : list event;
  files : gmap string string;
  open_error : string -> option exn;
  write_error : string -> option (nat * exn)
}.

Definition emit (ev : event) (s : State) : State :=
  mkState (self s) (trace s ++ [ev]) (files s) (open_error s)
    (write_error s).

Definition set_results (rs : list SearchResult) (s : State) : State :=
  mkState
    (mkGoogleScraper (query (self s)) (num_scrolls (self s)) rs
       (driver (self s)))
    (trace s) (files s) (open_error s) (write_error s).

Definition write_file (name content : string) (s : State) : State :=
  mkState (self s) (trace s) (<[name := content]> (files s)) (open_error s)
    (write_error s).

(** Lines printed so far. *)
Definition stdout (s : State) : list string :=
  omap (fun ev => match ev with Print l => Some l | _ => None end) (trace s).

(** ** Statements: state and exceptions *)

Definition M (A : Type) : Type := State -> outcome A * State.

Definition ret {A} (a : A) : M A := fun s => (Ok a, s).

Definition bind {A B} (m : M A) (k : A -> M B) : M B :=
  fun s =>
    match m s with
    | (Ok a, s') => k a s'
    | (Raise e, s') => (Raise e, s')
    end.

Definition raise {A} (e : exn) : M A := fun s => (Raise e, s).

(** The answer of an outside call. *)
Definition answer {A} (o : outcome A) : M A := fun s => (o, s).

Definition do_ (ev : event) : M unit := fun s => (Ok tt, emit ev s).

Definition get_state : M State := fun s => (Ok s, s).

Declare Scope py_scope.
Delimit Scope py_scope with py.
Notation "x <- m ;; k" := (bind m (fun x => k))
  (at level 100, m at next level, right associativity) : py_scope.
Notation "m ;;; k" := (bind m (fun _ => k))
  (at level 100, right associativity) : py_scope.
Local Open Scope py_scope.

(** [try: body  except cls as e: handler e] *)
Definition try_except {A} (body : M A) (cls : exn_class)
    (handler : exn -> M A) : M A :=
  fun s =>
    match body s with
    | (Ok a, s') => (Ok a, s')
    | (Raise e, s') =>
        if isinstance e cls then handler e s' else (Raise e, s')
    end.

(** [try: body  finally: cleanup].  The cleanup always runs; what it
    raises replaces the outcome of the body. *)
Definition try_finally {A} (body : M A) (cleanup : M unit) : M A :=
  fun s =>
    match body s with
    | (r, s') =>
        match cleanup s' with
        | (Ok _, s'') => (r, s'')
        | (Raise e, s'') => (Raise e, s'')
        end
    end.

(** [for x in l: body x] *)
Fixpoint for_each {B} (l : list B) (body : B -> M unit) : M unit :=
  match l with
  | [] => ret tt
  | x :: l' => body x ;;; for_each l' body
  end.

Definition print (line : string) : M unit := do_ (Print line).
Definition sleep (seconds : nat) : M unit := do_ (Sleep seconds).

(** ** Calls to the driver: recorded, then answered *)

Definition call_get (url : string) : M unit :=
  s <- get_state ;;
  do_ (DriverGet url) ;;;
  answer (driver_get (driver (self s)) (trace s) url).

Definition call_find_element (by_ : By) (value : string) : M WebElement :=
  s <- get_state ;;
  do_ (DriverFindElement by_ value) ;;;
  answer (driver_find_element (driver (self s)) (trace s) by_ value).

Definition call_find_elements (by_ : By) (value : string)
    : M (list WebElement) :=
  s <- get_state ;;
  do_ (DriverFindElements by_ value) ;;;
  answer (driver_find_elements (driver (self s)) (trace s) by_ value).

Definition call_send_keys (el : WebElement) (keys : string) : M unit :=
  do_ (SendKeys keys) ;;;
  answer (send_keys el keys).

(** [driver.quit()]: ends the session.  Chrome's [quit] swallows what
    goes wrong while it shuts down, so it is a call that returns. *)
Definition call_quit : M unit := do_ DriverQuit.

(** [self.results.append(r)] *)
Definition results_append (r : SearchResult) : M unit :=
  fun s => (Ok tt, set_results (results (self s) ++ [r]) s).

(** ** [GoogleScraper.scrape] *)

(** The body of [for result in search_results], lines 69-81. *)
Definition scan_result (result : WebElement) : M unit :=
  try_except
    (title_element <- answer (find_element result CSS_SELECTOR "h3") ;;
     url_element <- answer (find_element result CSS_SELECTOR "a") ;;
     description_element <-
       answer (find_element result CSS_SELECTOR "div.VwiC3b") ;;
     title <- answer (text title_element) ;;
     url <- answer (get_attribute url_element "href") ;;
     description <- answer (text description_element) ;;
     (* if title and url: *)
     match url with
     | Some href =>
         if truthy title && truthy href
         then results_append (mkSearchResult title href description)
         else ret tt
     | None => ret tt
     end)
    NoSuchElementException
    (fun _ => print "[WARNING]: Missing element in a result, skipping...").

(** One turn of the scroll loop, lines 61-62. *)
Definition scroll_once : M unit :=
  body <- call_find_element TAG_NAME "body" ;;
  call_send_keys body Keys_END ;;;
  sleep 2.

(** Lines 56-81: what the outer [try] guards. *)
Definition scrape_body : M unit :=
  s <- get_state ;;
  call_get ("https://www.google.com/search?q=" +:+ query (self s)) ;;;
  sleep 2 ;;;
  for_each (range (num_scrolls (self s))) (fun _ => scroll_once) ;;;
  search_results <- call_find_elements CSS_SELECTOR "div.g" ;;
  print ("[INFO]: Found " +:+ pretty (length search_results)
         +:+ " search results.") ;;;
  for_each search_results scan_result.

Definition scrape : M unit :=
  print "[INFO]: Starting Google scraping..." ;;;
  try_finally
    (try_except scrape_body Exception
       (fun e =>
          print ("[ERROR]: An error occurred during scraping: " +:+ str e)))
    (call_quit ;;;
     print "[INFO]: Scraping completed.").

(** ** pandas: [DataFrame(records).to_csv(file_name, index=False)] *)

Module Csv.

Definition comma : ascii := ascii_of_nat 44.
Definition dquote : ascii := ascii_of_nat 34.
Definition LF : ascii := ascii_of_nat 10.

(** The csv writer as pandas drives it (minimal quoting, line
    terminator [os.linesep], here the line feed of POSIX): a field is
    quoted when it holds the delimiter, the quote character or a
    character of the line terminator.  A bare carriage return is not
    quoted. *)
Definition special (c : ascii) : bool :=
  Ascii.eqb c comma || Ascii.eqb c dquote || Ascii.eqb c LF.

Fixpoint has_special (s : string) : bool :=
  match s with
  | EmptyString => false
  | String c s' => special c || has_special s'
  end.

(** Inside quotes every quote character is doubled. *)
Fixpoint escape (s : string) : string :=
  match s with
  | EmptyString => EmptyString
  | String c s' =>
      if Ascii.eqb c dquote
      then String dquote (String dquote (escape s'))
      else String c (escape s')
  end.

Definition field (s : string) : string :=
  if has_special s
  then String dquote (escape s +:+ String dquote EmptyString)
  else s.

Fixpoint join_fields (fs : list string) : string :=
  match fs with
  | [] => EmptyString
  | [f] => field f
  | f :: fs' => field f +:+ String comma (join_fields fs')
  end.

(** One record and its line terminator. *)
Definition row (fs : list string) : string :=
  join_fields fs +:+ String LF EmptyString.

Fixpoint rows (rs : list (list string)) : string :=
  match rs with
  | [] => EmptyString
  | r :: rs' => row r +:+ rows rs'
  end.

(** Reading back: the number of records of a CSV text.  A line break
    ends a record unless it stands between quotes; a doubled quote
    closes and reopens. *)
Fixpoint count_records (quoted : bool) (s : string) : nat :=
  match s with
  | EmptyString => 0
  | String c s' =>
      if Ascii.eqb c dquote then count_records (negb quoted) s'
      else if Ascii.eqb c LF && negb quoted
           then S (count_records false s')
           else count_records quoted s'
  end.

End Csv.

Record DataFrame : Set := mkDataFrame {
  columns : list string;
  values : list (list string)
}.

(** [pd.DataFrame(records)] for a list of dicts: the columns are the
    keys in the order the dicts list them, one row per dict. *)
Definition DataFrame_of (records : list SearchResult) : DataFrame :=
  mkDataFrame
    ["Title"; "URL"; "Description"]
    (map (fun r => [Title r; URL r; Description r]) records).

(** The text [to_csv(..., index=False)] produces: the header, then the
    rows, no index column. *)
Definition csv_text (df : DataFrame) : string :=
  Csv.row (columns df) +:+ Csv.rows (values df).

(** The data rows of a CSV text: its records but the header. *)
Definition data_rows (content : string) : nat :=
  Nat.pred (Csv.count_records false content).

(** The first [k] characters of a text. *)
Fixpoint first_chars (k : nat) (s : string) : string :=
  match k, s with
  | S k', String c s' => String c (first_chars k' s')
  | _, _ => EmptyString
  end.

(** [df.to_csv(file_name, index=False)]: opens the file for writing,
    which may fail and then leaves the files as they were; the open
    file is empty, and the text is written to it, which may fail too
    and then leaves the part of the text written so far. *)
Definition to_csv (df : DataFrame) (file_name : string) : M unit :=
  do_ (ToCsv file_name (csv_text df)) ;;;
  s <- get_state ;;
  match open_error s file_name with
  | Some e => raise e
  | None =>
      match write_error s file_name with
      | Some (k, e) =>
          fun s =>
            (Raise e, write_file file_name (first_chars k (csv_text df)) s)
      | None => fun s => (Ok tt, write_file file_name (csv_text df) s)
      end
  end.

(** ** [GoogleScraper.save_to_csv] *)

Definition save_to_csv (file_name : string) : M unit :=
  s <- get_state ;;
  match results (self s) with
  | [] => print "[WARNING]: No results to save."      (* return *)
  | _ :: _ =>
      try_except
        (let df := DataFrame_of (results (self s)) in
         to_csv df file_name ;;;
         print ("[INFO]: Results saved to " +:+ file_name))
        Exception
        (fun e => print ("[ERROR]: Failed to save results to CSV: " +:+ str e))
  end.

(** ** Built-ins of [str] and [int] the entry point uses

    [str.strip] and [int] belong to the interpreter, not to the
    script: which characters are white space and which are decimal
    digits is read from the Unicode tables of its build, and [int]
    refuses literals of more digits than [sys.int_max_str_digits].
    They are taken as given.  A string stands for its UTF-8
    encoding. *)
Record Builtins : Type := mkBuiltins {
  (** [s.strip()] *)
  str_strip : string -> string;
  (** [int(s)] for a string: the number, or [None] when it raises
      [ValueError] *)
  int_of_str : string -> option Z;
  (** the text of that [ValueError] *)
  int_error : string -> string
}.

Definition int (py : Builtins) (s : string) : outcome Z :=
  match int_of_str py s with
  | Some z => Ok z
  | None => Raise (mkExn ValueError (int_error py s))
  end.

(** The built-ins of CPython 3.11 on lines of ASCII characters, to run
    the examples with.  Other characters are outside its scope: it
    leaves them where they are and [int] refuses them. *)
Module AsciiLines.

(** White space for [str.strip]: tab to carriage return, the four
    separators 28-31, and the space. *)
Definition isspace (c : ascii) : bool :=
  let n := nat_of_ascii c in
  (Nat.leb 9 n && Nat.leb n 13) || (Nat.leb 28 n && Nat.leb n 32).

(** White space for [int]: tab to carriage return, and the space. *)
Definition int_space (c : ascii) : bool :=
  let n := nat_of_ascii c in
  (Nat.leb 9 n && Nat.leb n 13) || Nat.eqb n 32.

Fixpoint lstrip (space : ascii -> bool) (s : string) : string :=
  match s with
  | EmptyString => EmptyString
  | String c s' => if space c then lstrip space s' else s
  end.

Fixpoint rstrip (space : ascii -> bool) (s : string) : string :=
  match s with
  | EmptyString => EmptyString
  | String c s' =>
      match rstrip space s' with
      | EmptyString => if space c then EmptyString else String c EmptyString
      | String d r => String c (String d r)
      end
  end.

Definition strip (s : string) : string := rstrip isspace (lstrip isspace s).

Definition isdigit (c : ascii) : bool :=
  let n := nat_of_ascii c in Nat.leb 48 n && Nat.leb n 57.

Definition digit_value (c : ascii) : Z := Z.of_nat (nat_of_ascii c) - 48.

(** Decimal digits, where single underscores may stand between two
    digits. *)
Fixpoint digits (acc : Z) (after_digit : bool) (s : string) : option Z :=
  match s with
  | EmptyString => if after_digit then Some acc else None
  | String c s' =>
      if isdigit c then digits (10 * acc + digit_value c) true s'
      else if Ascii.eqb c "_" && after_digit then digits acc false s'
      else None
  end.

Fixpoint count_digits (s : string) : nat :=
  match s with
  | EmptyString => 0
  | String c s' => (if isdigit c then 1 else 0) + count_digits s'
  end.

(** [sys.int_max_str_digits], by default. *)
Definition max_str_digits : nat := 4300.

Definition int_literal (s : string) : option Z :=
  if Nat.ltb max_str_digits (count_digits s) then None
  else match s with
       | String "+" s' => digits 0 false s'
       | String "-" s' => Z.opp <$> digits 0 false s'
       | _ => digits 0 false s
       end.

Definition int_of (s : string) : option Z :=
  int_literal (rstrip int_space (lstrip int_space s)).

Definition py : Builtins :=
  mkBuiltins strip int_of
    (fun s => "invalid literal for int() with base 10: '" +:+ s +:+ "'").

End AsciiLines.

(** ** The entry point, lines 106-119 *)

(** Lines 108-112, given the line typed at the second prompt. *)
Definition read_num_scrolls (py : Builtins) (line : string) : M Z :=
  try_except
    (let typed := str_strip py line in
     (* int(typed or 2) *)
     if truthy typed then answer (int py typed) else ret 2)
    ValueError
    (fun _ =>
       print "[WARNING]: Invalid input for scrolls, defaulting to 2." ;;;
       ret 2).

Definition chrome_arguments (headless : bool) : list string :=
  ["user-agent=Mozilla/5.0 (Windows NT 10.0; Win64; x64) AppleWebKit/537.36 (KHTML, like Gecko) Chrome/91.0.4472.124 Safari/537.36"]
  ++ (if headless then ["--headless"] else [])
  ++ ["--disable-gpu"; "--no-sandbox"; "--disable-dev-shm-usage"].

(** [webdriver.Chrome] is given as [chrome]: what starting the browser
    with these arguments answers. *)
Definition _init_driver (chrome : list string -> outcome WebDriver)
    (headless : bool) : M WebDriver :=
  try_except
    (answer (chrome (chrome_arguments headless)))
    WebDriverException
    (fun e =>
       print ("[ERROR]: WebDriver initialization failed: " +:+ str e) ;;;
       raise e).

(** [GoogleScraper(query, num_scrolls, headless)] bound to [self]. *)
Definition GoogleScraper_init (chrome : list string -> outcome WebDriver)
    (query : string) (num_scrolls : Z) (headless : bool) : M unit :=
  d <- _init_driver chrome headless ;;
  fun s =>
    (Ok tt,
     mkState (mkGoogleScraper query num_scrolls [] d)
       (trace s) (files s) (open_error s) (write_error s)).

(** The script, given the two lines typed at its prompts. *)
Definition main (py : Builtins) (chrome : list string -> outcome WebDriver)
    (line1 line2 : string) : M unit :=
  do_ (Input "Enter search query: ") ;;;
  let search_query := str_strip py line1 in
  do_ (Input "Enter number of scrolls (default 2): ") ;;;
  num_scrolls <- read_num_scrolls py line2 ;;
  GoogleScraper_init chrome search_query num_scrolls true ;;;
  scrape ;;;
  save_to_csv "google_search_results.csv".

(** * Notions the properties are stated with *)

(** ** What a statement leaves alone

    [preserves R m]: running [m] from any state leads to a state
    related to it by [R], whether [m] returns or raises. *)

Definition preserves (R : State -> State -> Prop) {A} (m : M A) : Prop :=
  forall s, R s (snd (m s)).

(** The trace grows by events none of which satisfies [p]. *)
Definition grows_without (p : event -> bool) (s s' : State) : Prop :=
  exists evs,
    trace s' = trace s ++ evs /\ forallb (fun ev => negb (p ev)) evs = true.

(** The trace only grows. *)
Definition trace_grows : State -> State -> Prop :=
  grows_without (fun _ => false).

(** The scraper object is the same but for its results. *)
Definition same_object (s s' : State) : Prop :=
  query (self s') = query (self s) /\
  num_scrolls (self s') = num_scrolls (self s) /\
  driver (self s') = driver (self s).

Definition same_results (s s' : State) : Prop :=
  results (self s') = results (self s).

Definition same_files (s s' : State) : Prop :=
  files s' = files s /\ open_error s' = open_error s /\
  write_error s' = write_error s.

Definition is_get (ev : event) : bool :=
  match ev with DriverGet _ => true | _ => false end.

Definition is_quit (ev : event) : bool :=
  match ev with DriverQuit => true | _ => false end.

Definition is_to_csv (ev : event) : bool :=
  match ev with ToCsv _ _ => true | _ => false end.

(** URLs the driver was sent to, oldest first. *)
Definition navigated (s : State) : list string :=
  omap (fun ev => match ev with DriverGet u => Some u | _ => None end)
    (trace s).

(** ** A result container, as the loop body reads it *)

Definition lookup_title (result : WebElement) : outcome WebElement :=
  find_element result CSS_SELECTOR "h3".
Definition lookup_url (result : WebElement) : outcome WebElement :=
  find_element result CSS_SELECTOR "a".
Definition lookup_description (result : WebElement) : outcome WebElement :=
  find_element result CSS_SELECTOR "div.VwiC3b".

Definition found (o : outcome WebElement) : Prop := exists el, o = Ok el.

(** The look-up reports that nothing matches. *)
Definition missing (o : outcome WebElement) : Prop :=
  exists e, o = Raise e /\ class_of e = NoSuchElementException.

(** The Title text, the URL attribute and the Description text of a
    container, when they can be read. *)
Definition title_text (result : WebElement) : outcome string :=
  match lookup_title result with
  | Ok el => text el
  | Raise e => Raise e
  end.

Definition url_attribute (result : WebElement) : outcome (option string) :=
  match lookup_url result with
  | Ok el => get_attribute el "href"
  | Raise e => Raise e
  end.

Definition description_text (result : WebElement) : outcome string :=
  match lookup_description result with
  | Ok el => text el
  | Raise e => Raise e
  end.

Definition has_title_and_url (result : WebElement) : Prop :=
  (exists t, title_text result = Ok t /\ t <> "") /\
  (exists u, url_attribute result = Ok (Some u) /\ u <> "").

(** Scanning [result] from [s] appends a record to [self.results]. *)
Definition record_included (result : WebElement) (s : State) : Prop :=
  exists r,
    results (self (snd (scan_result result s))) = results (self s) ++ [r].

(** The record of a qualifying container: all three parts are read,
    Title and URL are not empty. *)
Definition record_of (result : WebElement) : option SearchResult :=
  match title_text result, url_attribute result, description_text result with
  | Ok t, Ok (Some u), Ok d =>
      if truthy t && truthy u then Some (mkSearchResult t u d) else None
  | _, _, _ => None
  end.

Definition missing_warning : string :=
  "[WARNING]: Missing element in a result, skipping...".

(** ** The typed scroll count *)

Definition scrolls_warning : string :=
  "[WARNING]: Invalid input for scrolls, defaulting to 2.".

(** [int] refuses what is left of the line once stripped: the line
    does not parse as an integer. *)
Definition int_rejects (py : Builtins) (line : string) : Prop :=
  int_of_str py (str_strip py line) = None.

(** ** Sample pages *)

Module Sample.

Definition no_such_element : exn :=
  mkExn NoSuchElementException "Message: no such element".

(** An element with a text and, possibly, an [href]; nothing inside. *)
Definition leaf (t : string) (href : option string) : WebElement :=
  mkWebElement (Ok t) (fun _ => Ok href) (fun _ => Ok tt)
    (fun _ _ => Raise no_such_element).

(** A [div.g] given what its three look-ups answer. *)
Definition container (h3 a snippet : outcome WebElement) : WebElement :=
  mkWebElement (Ok "") (fun _ => Ok None) (fun _ => Ok tt)
    (fun _ sel =>
       if String.eqb sel "h3" then h3
       else if String.eqb sel "a" then a
       else if String.eqb sel "div.VwiC3b" then snippet
       else Raise no_such_element).

(** Title, link and snippet. *)
Definition full : WebElement :=
  container (Ok (leaf "Rocq" None))
    (Ok (leaf "" (Some "https://rocq-prover.org/")))
    (Ok (leaf "A proof assistant, and more" None)).

(** Another full one. *)
Definition second : WebElement :=
  container (Ok (leaf "Stdlib" None))
    (Ok (leaf "" (Some "https://rocq-prover.org/stdlib")))
    (Ok (leaf "" None)).

(** Title and link, but no snippet. *)
Definition no_snippet : WebElement :=
  container (Ok (leaf "Rocq" None))
    (Ok (leaf "" (Some "https://rocq-prover.org/")))
    (Raise no_such_element).

(** A link without [href]. *)
Definition no_href : WebElement :=
  container (Ok (leaf "Rocq" None)) (Ok (leaf "" None))
    (Ok (leaf "A proof assistant" None)).

Definition body : WebElement := leaf "" None.

(** A browser that loads any page and shows [page]. *)
Definition browser (page : list WebElement) : WebDriver :=
  mkWebDriver (fun _ _ => Ok tt) (fun _ _ _ => Ok body)
    (fun _ _ _ => Ok page).

(** A fresh scraper in a fresh process, every file writable. *)
Definition start (q : string) (n : Z) (page : list WebElement) : State :=
  mkState (mkGoogleScraper q n [] (browser page)) [] ∅ (fun _ => None)
    (fun _ => None).

Definition permission_denied : exn :=
  mkExn OSError "[Errno 13] Permission denied".

(** The same, with one record collected. *)
Definition collected (r : SearchResult) (err : string -> option exn)
    : State :=
  mkState (mkGoogleScraper "rocq" 2 [r] (browser [])) [] ∅ err
    (fun _ => None).

Definition rocq : SearchResult :=
  mkSearchResult "Rocq" "https://rocq-prover.org/"
    "A proof assistant, and more".

Definition stdlib : SearchResult :=
  mkSearchResult "Stdlib" "https://rocq-prover.org/stdlib" "".

End Sample.

(** ** Events of note *)

(** Navigation, the end of the session and file writes. *)
Definition noisy (ev : event) : bool :=
  is_get ev || is_quit ev || is_to_csv ev.

(** Nothing of note happens: the object is the same but for its
    results, the files are the same, no noisy event is made. *)
Definition quiet (s s' : State) : Prop :=
  same_object s s' /\ same_files s s' /\ grows_without noisy s s'.

(** Quiet, and the results are the same too. *)
Definition idle (s s' : State) : Prop :=
  quiet s s' /\ same_results s s'.

Definition search_url (q : string) : string :=
  "https://www.google.com/search?q=" +:+ q.

Definition started (s : State) : State :=
  emit (Print "[INFO]: Starting Google scraping...") s.

(** The guarded block of [scrape], lines 56-81, runs to its end. *)
Definition scan_completes (s : State) : Prop :=
  fst (scrape_body (started s)) = Ok tt.

(** ** Further notions *)

(** The six accesses of the loop body in the order lines 70-76 make
    them, and the exception of the first one that raises. *)
Definition first_error (result : WebElement) : option exn :=
  match lookup_title result with
  | Raise e => Some e
  | Ok title_element =>
  match lookup_url result with
  | Raise e => Some e
  | Ok url_element =>
  match lookup_description result with
  | Raise e => Some e
  | Ok description_element =>
  match text title_element with
  | Raise e => Some e
  | Ok _ =>
  match get_attribute url_element "href" with
  | Raise e => Some e
  | Ok _ =>
  match text description_element with
  | Raise e => Some e
  | Ok _ => None
  end end end end end end.

(** An access fails on the container, and the first one to fail
    reports a missing element. *)
Definition first_failure_is_missing (result : WebElement) : Prop :=
  exists e, first_error result = Some e /\
            class_of e = NoSuchElementException.

(** The loop is left at this container: the first access to fail raises
    something other than [NoSuchElementException]. *)
Definition aborts (result : WebElement) : bool :=
  match first_error result with
  | Some e => negb (isinstance e NoSuchElementException)
  | None => false
  end.

(** The containers the loop gets through: those before the first at
    which it is left. *)
Fixpoint scanned (cs : list WebElement) : list WebElement :=
  match cs with
  | [] => []
  | c :: cs' => if aborts c then [] else c :: scanned cs'
  end.

(** Lines 56-65 of [scrape]: from the page load to the answer of
    [find_elements]. *)
Definition find_results : M (list WebElement) :=
  (s <- get_state ;;
   call_get ("https://www.google.com/search?q=" +:+ query (self s)) ;;;
   sleep 2 ;;;
   for_each (range (num_scrolls (self s))) (fun _ => scroll_once) ;;;
   call_find_elements CSS_SELECTOR "div.g")%py.

(** What [find_elements] answers in the call of [scrape] made from
    [s], if the call gets that far. *)
Definition containers_found (s : State) : outcome (list WebElement) :=
  fst (find_results
         (emit (Print "[INFO]: Starting Google scraping...") s)).

(** The containers that call scans, in page order. *)
Definition encountered (s : State) : list WebElement :=
  match containers_found s with
  | Ok cs => scanned cs
  | Raise _ => []
  end.

(** A record as the data model wants it: Title and URL not empty. *)
Definition valid_record (r : SearchResult) : Prop :=
  Title r <> "" /\ URL r <> "".

Definition is_print (ev : event) : bool :=
  match ev with Print _ => true | _ => false end.

(** The events of [n] successful turns of the scroll loop. *)
Definition scroll_events (n : nat) : list event :=
  concat (repeat [DriverFindElement TAG_NAME "body"; SendKeys Keys_END;
                  Sleep 2] n).

(** Every page load returns. *)
Definition loads (d : WebDriver) : Prop :=
  forall tr url, driver_get d tr url = Ok tt.

(** The body is always found and takes the key. *)
Definition scrolls (d : WebDriver) : Prop :=
  forall tr, exists body,
    driver_find_element d tr TAG_NAME "body" = Ok body /\
    send_keys body Keys_END = Ok tt.

(** The file the script writes. *)
Definition output_file : string := "google_search_results.csv".

(** The state [GoogleScraper(...)] leaves when the browser starts. *)
Definition constructed (q : string) (n : Z) (d : WebDriver) (s : State)
    : State :=
  mkState (mkGoogleScraper q n [] d) (trace s) (files s) (open_error s)
    (write_error s).

(** The two prompts. *)
Definition prompted (s : State) : State :=
  emit (Input "Enter number of scrolls (default 2): ")
    (emit (Input "Enter search query: ") s).

(** The state after the scroll count is read, and the count. *)
Definition counted (py : Builtins) (line2 : string) (s : State) : State :=
  snd (read_num_scrolls py line2 (prompted s)).

Definition typed_scrolls (py : Builtins) (line2 : string) (s : State) : Z :=
  match fst (read_num_scrolls py line2 (prompted s)) with
  | Ok n => n
  | Raise _ => 2
  end.

(** The state in which the script calls [scrape], once Chrome has
    started as [d]. *)
Definition launched (py : Builtins) (d : WebDriver) (line1 line2 : string)
    (s : State) : State :=
  constructed (str_strip py line1) (typed_scrolls py line2 s) d
    (counted py line2 s).

(** Several events at once. *)
Definition emits (evs : list event) (s : State) : State :=
  mkState (self s) (trace s ++ evs) (files s) (open_error s)
    (write_error s).

(** A line of [n] nines. *)
Fixpoint nines (n : nat) : string :=
  match n with
  | O => EmptyString
  | S n' => String "9" (nines n')
  end.

(** ** Faulty pages and browsers *)

Module Faulty.

Definition stale : exn :=
  mkExn StaleElementReferenceException
    "Message: stale element reference".

Definition timeout : exn :=
  mkExn TimeoutException "Message: timeout".

(** A container that went stale: every look-up in it fails. *)
Definition stale_container : WebElement :=
  Sample.container (Raise stale) (Raise stale) (Raise stale).

(** A container whose title look-up fails on a stale reference, and
    which has no snippet element either. *)
Definition stale_title_no_snippet : WebElement :=
  Sample.container (Raise stale)
    (Ok (Sample.leaf "" (Some "https://rocq-prover.org/")))
    (Raise Sample.no_such_element).

(** A browser that cannot load any page. *)
Definition offline : WebDriver :=
  mkWebDriver (fun _ _ => Raise timeout)
    (fun _ _ _ => Ok Sample.body) (fun _ _ _ => Ok []).

Definition offline_start (q : string) (n : Z) : State :=
  mkState (mkGoogleScraper q n [] offline) [] ∅ (fun _ => None)
    (fun _ => None).

Definition disk_full : exn :=
  mkExn OSError "[Errno 28] No space left on device".

(** One record collected, and a disk that is full after [k] bytes. *)
Definition collected_on_full_disk (k : nat) : State :=
  mkState (mkGoogleScraper "rocq" 2 [Sample.stdlib] (Sample.browser []))
    [] (<["out.csv" := "kept from an earlier run"]> ∅) (fun _ => None)
    (fun _ => Some (k, disk_full)).

Definition no_chrome : exn :=
  mkExn WebDriverException "Message: unable to obtain driver for chrome".

End Faulty.

(** What the terminal sees: a printed line or a prompt. *)
Definition is_terminal (ev : event) : bool :=
  match ev with Print _ | Input _ => true | _ => false end.

Definition init_error (e : exn) : string :=
  "[ERROR]: WebDriver initialization failed: " +:+ str e.

(** A Chrome that starts, and one that does not. *)
Definition chrome_starts (d : WebDriver) : list string -> outcome WebDriver :=
  fun _ => Ok d.
Definition chrome_fails (e : exn) : list string -> outcome WebDriver :=
  fun _ => Raise e.

(** ** Reading a CSV record back *)

Module CsvRead.

(** After an opening quote: the field, and what follows the closing
    quote.  A doubled quote stands for one. *)
Fixpoint quoted (s : string) : option (string * string) :=
  match s with
  | EmptyString => None
  | String c s' =>
      if Ascii.eqb c Csv.dquote then
        match s' with
        | String c' s'' =>
            if Ascii.eqb c' Csv.dquote
            then match quoted s'' with
                 | Some (f, rest) => Some (String Csv.dquote f, rest)
                 | None => None
                 end
            else Some (EmptyString, s')
        | EmptyString => Some (EmptyString, EmptyString)
        end
      else match quoted s' with
           | Some (f, rest) => Some (String c f, rest)
           | None => None
           end
  end.

(** An unquoted field runs up to the next comma or line break. *)
Fixpoint plain (s : string) : string * string :=
  match s with
  | EmptyString => (EmptyString, EmptyString)
  | String c s' =>
      if Ascii.eqb c Csv.comma || Ascii.eqb c Csv.LF
      then (EmptyString, s)
      else let (f, rest) := plain s' in (String c f, rest)
  end.

Definition field (s : string) : option (string * string) :=
  match s with
  | String c s' => if Ascii.eqb c Csv.dquote then quoted s' else Some (plain s)
  | EmptyString => Some (plain s)
  end.

(** What follows must start with [c]. *)
Definition expect (c : ascii) (s : string) : option string :=
  match s with
  | String c' s' => if Ascii.eqb c' c then Some s' else None
  | EmptyString => None
  end.

(** A record of three fields and its line break; what follows it. *)
Definition row3 (s : string) : option (list string * string) :=
  match field s with
  | None => None
  | Some (f1, s1) =>
  match expect Csv.comma s1 with
  | None => None
  | Some s1' =>
  match field s1' with
  | None => None
  | Some (f2, s2) =>
  match expect Csv.comma s2 with
  | None => None
  | Some s2' =>
  match field s2' with
  | None => None
  | Some (f3, s3) =>
  match expect Csv.LF s3 with
  | None => None
  | Some rest => Some ([f1; f2; f3], rest)
  end end end end end end.

End CsvRead.

(** ** A healthy page *)

(** Some access of the loop body fails on this container. *)
Definition fails (result : WebElement) : bool :=
  match first_error result with
  | Some _ => true
  | None => false
  end.

(** Whatever fails on the container is a missing element. *)
Definition only_missing (result : WebElement) : Prop :=
  forall e, first_error result = Some e ->
            class_of e = NoSuchElementException.

(** The warnings of a scan: one for each container on which an access
    fails. *)
Definition warnings (cs : list WebElement) : list event :=
  repeat (Print missing_warning) (length (filter (fun c => fails c = true) cs)).

Definition found_line (cs : list WebElement) : string :=
  "[INFO]: Found " +:+ pretty (length cs) +:+ " search results.".

(** * Properties *)

(** ** Exceptions *)

(** Every class of the model derives from [Exception], so an
    [except Exception] clause lets nothing through. *)
Lemma isinstance_Exception (e : exn) : isinstance e Exception = true.
Proof. destruct e as [[] msg]; reflexivity. Qed.

(** Only [NoSuchElementException] itself is caught by the inner
    handler. *)
Lemma isinstance_NoSuchElement (e : exn) :
  isinstance e NoSuchElementException = true <->
  class_of e = NoSuchElementException.
Proof. destruct e as [[] msg]; vm_compute; split; congruence. Qed.

(** ** Framing: a relation that holds across each statement holds
    across the whole *)

Section Preserves.
Variable R : State -> State -> Prop.
Hypothesis R_refl : forall s, R s s.
Hypothesis R_trans : forall s1 s2 s3, R s1 s2 -> R s2 s3 -> R s1 s3.

Lemma preserves_ret {A} (a : A) : preserves R (ret a).
Proof. intros s. apply R_refl. Qed.

Lemma preserves_raise {A} (e : exn) : preserves R (@raise A e).
Proof. intros s. apply R_refl. Qed.

Lemma preserves_answer {A} (o : outcome A) : preserves R (answer o).
Proof. intros s. apply R_refl. Qed.

Lemma preserves_get_state : preserves R get_state.
Proof. intros s. apply R_refl. Qed.

Lemma preserves_bind {A B} (m : M A) (k : A -> M B) :
  preserves R m -> (forall a, preserves R (k a)) -> preserves R (bind m k).
Proof.
  intros Hm Hk s. unfold bind. specialize (Hm s).
  destruct (m s) as [[a | e] s1]; cbn in *; [| assumption].
  eapply R_trans; [eassumption | apply Hk].
Qed.

Lemma preserves_try_except {A} (body : M A) cls (handler : exn -> M A) :
  preserves R body -> (forall e, preserves R (handler e)) ->
  preserves R (try_except body cls handler).
Proof.
  intros Hb Hh s. unfold try_except. specialize (Hb s).
  destruct (body s) as [[a | e] s1]; cbn in *; [assumption |].
  destruct (isinstance e cls); [| assumption].
  eapply R_trans; [eassumption | apply Hh].
Qed.

Lemma preserves_try_finally {A} (body : M A) (cleanup : M unit) :
  preserves R body -> preserves R cleanup ->
  preserves R (try_finally body cleanup).
Proof.
  intros Hb Hc s. unfold try_finally. specialize (Hb s).
  destruct (body s) as [r s1]; cbn in *. specialize (Hc s1).
  destruct (cleanup s1) as [[[] | e] s2]; cbn in *;
    eapply R_trans; eassumption.
Qed.

Lemma preserves_for_each {B} (l : list B) (body : B -> M unit) :
  (forall x, preserves R (body x)) -> preserves R (for_each l body).
Proof.
  intros Hb. induction l as [| x l IH]; cbn [for_each].
  - apply preserves_ret.
  - apply preserves_bind; [apply Hb | intros _; exact IH].
Qed.
End Preserves.

Lemma grows_without_refl p s : grows_without p s s.
Proof. exists []. split; [now rewrite app_nil_r | reflexivity]. Qed.

Lemma grows_without_trans p s1 s2 s3 :
  grows_without p s1 s2 -> grows_without p s2 s3 -> grows_without p s1 s3.
Proof.
  intros (e1 & H1 & F1) (e2 & H2 & F2). exists (e1 ++ e2). split.
  - rewrite H2, H1. now rewrite <- app_assoc.
  - rewrite forallb_app, F1, F2. reflexivity.
Qed.

Lemma same_object_refl s : same_object s s.
Proof. repeat split. Qed.

Lemma same_object_trans s1 s2 s3 :
  same_object s1 s2 -> same_object s2 s3 -> same_object s1 s3.
Proof. unfold same_object. intuition congruence. Qed.

Lemma same_results_refl s : same_results s s.
Proof. reflexivity. Qed.

Lemma same_results_trans s1 s2 s3 :
  same_results s1 s2 -> same_results s2 s3 -> same_results s1 s3.
Proof. unfold same_results. congruence. Qed.

Lemma same_files_refl s : same_files s s.
Proof. repeat split. Qed.

Lemma same_files_trans s1 s2 s3 :
  same_files s1 s2 -> same_files s2 s3 -> same_files s1 s3.
Proof. unfold same_files. intuition congruence. Qed.

(** ** The loop body, lines 69-81 *)

(** The four ways through the body: a record is appended, the
    container is dropped silently, it is skipped with a warning, or an
    exception other than [NoSuchElementException] leaves the loop. *)
Lemma scan_result_cases (result : WebElement) (s : State) :
  match record_of result with
  | Some r =>
      scan_result result s =
        (Ok tt, set_results (results (self s) ++ [r]) s)
  | None =>
      scan_result result s = (Ok tt, s) \/
      scan_result result s = (Ok tt, emit (Print missing_warning) s) \/
      exists e, scan_result result s = (Raise e, s) /\
                isinstance e NoSuchElementException = false
  end.
Proof.
  unfold record_of, title_text, url_attribute, description_text,
    lookup_title, lookup_url, lookup_description, scan_result,
    try_except, bind, answer, print, do_, missing_warning.
  destruct (find_element result CSS_SELECTOR "h3") as [te | e] eqn:Eh; cbn.
  2:{ destruct (isinstance e NoSuchElementException) eqn:Ee; eauto. }
  destruct (find_element result CSS_SELECTOR "a") as [ue | e] eqn:Ea; cbn.
  2:{ destruct (text te);
        destruct (isinstance e NoSuchElementException) eqn:Ee; eauto. }
  destruct (find_element result CSS_SELECTOR "div.VwiC3b") as [de | e] eqn:Ed;
    cbn.
  2:{ destruct (text te); [destruct (get_attribute ue "href") as [[u|]|] |];
        destruct (isinstance e NoSuchElementException) eqn:Ee; eauto. }
  destruct (text te) as [t | e] eqn:Et; cbn.
  2:{ destruct (isinstance e NoSuchElementException) eqn:Ee; eauto. }
  destruct (get_attribute ue "href") as [[u |] | e] eqn:Eu; cbn.
  3:{ destruct (isinstance e NoSuchElementException) eqn:Ee; eauto. }
  2:{ destruct (text de) as [d | e]; cbn; eauto.
      destruct (isinstance e NoSuchElementException) eqn:Ee; eauto. }
  destruct (text de) as [d | e] eqn:Edt; cbn.
  2:{ destruct (isinstance e NoSuchElementException) eqn:Ee; eauto. }
  destruct (truthy t && truthy u); cbn; eauto.
Qed.

(** Scanning touches nothing but [self.results] and the trace. *)
Lemma scan_result_frame (result : WebElement) (s : State) :
  let s' := snd (scan_result result s) in
  same_object s s' /\ same_files s s' /\
  grows_without (fun ev => negb match ev with Print _ => true | _ => false end)
    s s'.
Proof.
  pose proof (scan_result_cases result s) as H.
  assert (Hnil : forall (p : event -> bool) (s1 s2 : State),
             trace s2 = trace s1 -> grows_without p s1 s2).
  { intros p s1 s2 Ht. exists []. rewrite Ht, app_nil_r. now split. }
  destruct (record_of result) as [r |].
  - rewrite H. cbn. split; [| split]; [now repeat split .. |].
    now apply Hnil.
  - destruct H as [H | [H | (e & H & _)]]; rewrite H; cbn;
      (split; [| split]; [now repeat split .. |]);
      try (now apply Hnil).
    exists [Print missing_warning]. now split.
Qed.

Lemma truthy_spec (s : string) : truthy s = true <-> s <> "".
Proof.
  unfold truthy. destruct (String.eqb_spec s ""); cbn; split;
    congruence.
Qed.

(** A container qualifies exactly when it has a record. *)
Lemma record_of_Some_iff (result : WebElement) :
  (exists r, record_of result = Some r) <->
  has_title_and_url result /\ exists d, description_text result = Ok d.
Proof.
  unfold record_of, has_title_and_url.
  destruct (title_text result) as [t | e].
  2:{ split; [intros [r H]; discriminate
             | intros [[(t & H & _) _] _]; discriminate]. }
  destruct (url_attribute result) as [[u |] | e].
  2,3: split; [intros [r H]; discriminate
              | intros [[_ (u' & H & _)] _]; discriminate].
  destruct (description_text result) as [d | e].
  2:{ split; [intros [r H]; discriminate | intros [_ [d H]]; discriminate]. }
  destruct (truthy t) eqn:Tt, (truthy u) eqn:Tu; cbn; split;
    try (intros [r H]; discriminate).
  - intros _. apply truthy_spec in Tt, Tu. split; [split |]; eauto.
  - eauto.
  - intros [[_ (u' & H & Hu)] _]. injection H as <-.
    apply truthy_spec in Hu. congruence.
  - intros [[(t' & H & Ht) _] _]. injection H as <-.
    apply truthy_spec in Ht. congruence.
  - intros [[(t' & H & Ht) _] _]. injection H as <-.
    apply truthy_spec in Ht. congruence.
Qed.

Lemma app_singleton_neq {A} (l : list A) (x : A) : l ++ [x] <> l.
Proof.
  intros H. apply (f_equal (@length A)) in H.
  rewrite length_app in H. cbn in H. lia.
Qed.

Lemma record_included_iff (result : WebElement) (s : State) :
  record_included result s <-> exists r, record_of result = Some r.
Proof.
  unfold record_included. pose proof (scan_result_cases result s) as H.
  destruct (record_of result) as [r |].
  - rewrite H. cbn. split; eauto.
  - split; [| intros [r Hr]; discriminate].
    intros [r Hr]. exfalso.
    destruct H as [H | [H | (e & H & _)]]; rewrite H in Hr; cbn in Hr;
      symmetry in Hr; exact (app_singleton_neq _ _ Hr).
Qed.

(** The body by its first failing access. *)
Lemma scan_result_by_first_error (result : WebElement) (s : State) :
  scan_result result s =
    match first_error result with
    | Some e =>
        if isinstance e NoSuchElementException
        then (Ok tt, emit (Print missing_warning) s)
        else (Raise e, s)
    | None =>
        match record_of result with
        | Some r => (Ok tt, set_results (results (self s) ++ [r]) s)
        | None => (Ok tt, s)
        end
    end.
Proof.
  unfold first_error, record_of, title_text, url_attribute,
    description_text, lookup_title, lookup_url, lookup_description,
    scan_result, try_except, bind, answer, print, do_, missing_warning.
  destruct (find_element result CSS_SELECTOR "h3") as [te | e]; cbn.
  2:{ now destruct (isinstance e NoSuchElementException). }
  destruct (find_element result CSS_SELECTOR "a") as [ue | e]; cbn.
  2:{ now destruct (isinstance e NoSuchElementException). }
  destruct (find_element result CSS_SELECTOR "div.VwiC3b") as [de | e]; cbn.
  2:{ now destruct (isinstance e NoSuchElementException). }
  destruct (text te) as [t | e]; cbn.
  2:{ now destruct (isinstance e NoSuchElementException). }
  destruct (get_attribute ue "href") as [u | e]; cbn.
  2:{ now destruct (isinstance e NoSuchElementException). }
  destruct (text de) as [d | e]; cbn.
  2:{ now destruct (isinstance e NoSuchElementException). }
  destruct u as [u |]; [| reflexivity].
  now destruct (truthy t && truthy u).
Qed.

Lemma record_of_first_error (result : WebElement) (r : SearchResult) :
  record_of result = Some r -> first_error result = None.
Proof.
  unfold record_of, first_error, title_text, url_attribute,
    description_text.
  destruct (lookup_title result) as [te |]; [| discriminate].
  destruct (text te); [| discriminate].
  destruct (lookup_url result) as [ue |]; [| discriminate].
  destruct (get_attribute ue "href") as [[u |] |]; try discriminate.
  destruct (lookup_description result) as [de |]; [| discriminate].
  now destruct (text de).
Qed.
Lemma for_each_cons {B} (x : B) (l : list B) (body : B -> M unit) (s : State) :
  for_each (x :: l) body s =
    match body x s with
    | (Ok _, s') => for_each l body s'
    | (Raise e, s') => (Raise e, s')
    end.
Proof. reflexivity. Qed.


(** C1, as the specification words it, fails: a container with a title
    and a link but no snippet element has a non-empty Title and URL,
    and is skipped all the same. *)
Lemma titled_linked_container_not_included :
  ~ (record_included Sample.no_snippet (Sample.start "rocq" 2 [])
     <-> has_title_and_url Sample.no_snippet).
Proof.
  intros [_ H].
  assert (Hq : has_title_and_url Sample.no_snippet).
  { split; [exists "Rocq" | exists "https://rocq-prover.org/"];
      (split; [reflexivity | discriminate]). }
  destruct (H Hq) as [r Hr]. vm_compute in Hr. discriminate.
Qed.

(** C1, amended: for a container whose description element is found
    and read, scanning it appends a record if and only if both its
    Title text and its URL attribute are non-empty; the record appended
    holds the three values read, and otherwise the collection is left
    as it was. *)
Theorem scan_result_included_iff (result : WebElement) (s : State)
    (d : string) :
  description_text result = Ok d ->
  (record_included result s <-> has_title_and_url result) /\
  (results (self (snd (scan_result result s))) = results (self s) \/
   exists t u,
     title_text result = Ok t /\ url_attribute result = Ok (Some u) /\
     results (self (snd (scan_result result s))) =
       results (self s) ++ [mkSearchResult t u d]).
Proof.
  intros Hd. split.
  - rewrite record_included_iff, record_of_Some_iff.
    split; [tauto | eauto].
  - pose proof (scan_result_cases result s) as H.
    unfold record_of in H. rewrite Hd in H.
    destruct (title_text result) as [t | e1].
    2:{ left. destruct H as [H | [H | (e & H & _)]]; now rewrite H. }
    destruct (url_attribute result) as [[u |] | e2].
    2,3: left; destruct H as [H | [H | (e & H & _)]]; now rewrite H.
    destruct (truthy t && truthy u).
    + right. exists t, u. rewrite H. auto.
    + left. destruct H as [H | [H | (e & H & _)]]; now rewrite H.
Qed.

Lemma scan_result_included_iff_witness :
  description_text Sample.full = Ok "A proof assistant, and more" /\
  (record_included Sample.full (Sample.start "rocq" 2 [])
   <-> has_title_and_url Sample.full).
Proof.
  split; [reflexivity |].
  apply (scan_result_included_iff Sample.full (Sample.start "rocq" 2 [])
           "A proof assistant, and more").
  reflexivity.
Defined.

(** When one of the three look-ups, made in the order title, link,
    description, reports its element missing and every look-up before
    it found its element, the first access to fail is that look-up. *)
Lemma missing_lookup_fails_first (result : WebElement) :
  missing (lookup_title result) \/
  (found (lookup_title result) /\ missing (lookup_url result)) \/
  (found (lookup_title result) /\ found (lookup_url result) /\
   missing (lookup_description result)) ->
  first_failure_is_missing result.
Proof.
  unfold missing, found, first_failure_is_missing, first_error.
  intros [(e & -> & He)
         | [((te & ->) & e & -> & He)
           | ((te & ->) & (ue & ->) & e & -> & He)]]; eauto.
Qed.

(** C2, as worded, fails: a container whose snippet element is missing
    but whose title look-up raises another exception is not skipped;
    the exception leaves the loop and the next container is never
    processed. *)
Lemma missing_snippet_after_stale_title_ends_scan :
  ~ (missing (lookup_title Faulty.stale_title_no_snippet) \/
     missing (lookup_url Faulty.stale_title_no_snippet) \/
     missing (lookup_description Faulty.stale_title_no_snippet) ->
     for_each [Faulty.stale_title_no_snippet; Sample.full] scan_result
       (Sample.start "rocq" 2 []) =
     for_each [Sample.full] scan_result
       (emit (Print missing_warning) (Sample.start "rocq" 2 []))).
Proof.
  intros H.
  assert (Hm : missing (lookup_description Faulty.stale_title_no_snippet)).
  { exists Sample.no_such_element. split; reflexivity. }
  specialize (H (or_intror (or_intror Hm))).
  apply (f_equal fst) in H. vm_compute in H. discriminate H.
Qed.

(** C2, amended: when the first access to fail on a container reports
    a missing element (so when a look-up finds its element missing and
    the look-ups made before it succeeded), the container is skipped:
    the body prints the warning, appends nothing, raises nothing, and
    the loop goes on with the remaining containers. *)
Theorem scan_result_skips_first_missing (result : WebElement)
    (rest : list WebElement) (s : State) :
  first_failure_is_missing result ->
  scan_result result s = (Ok tt, emit (Print missing_warning) s) /\
  results (self (snd (scan_result result s))) = results (self s) /\
  for_each (result :: rest) scan_result s =
    for_each rest scan_result (emit (Print missing_warning) s).
Proof.
  intros (e & He & Hc).
  assert (H : scan_result result s = (Ok tt, emit (Print missing_warning) s)).
  { rewrite scan_result_by_first_error, He.
    apply isinstance_NoSuchElement in Hc. now rewrite Hc. }
  split; [exact H |]. split.
  - now rewrite H.
  - rewrite for_each_cons. now rewrite H.
Qed.

Lemma scan_result_skips_first_missing_witness :
  scan_result Sample.no_snippet (Sample.start "rocq" 2 []) =
    (Ok tt, emit (Print missing_warning) (Sample.start "rocq" 2 [])) /\
  results (self (snd (scan_result Sample.no_snippet
                        (Sample.start "rocq" 2 [])))) = [] /\
  for_each [Sample.no_snippet; Sample.full] scan_result
      (Sample.start "rocq" 2 []) =
    for_each [Sample.full] scan_result
      (emit (Print missing_warning) (Sample.start "rocq" 2 [])).
Proof.
  apply (scan_result_skips_first_missing Sample.no_snippet [Sample.full]
           (Sample.start "rocq" 2 [])).
  apply missing_lookup_fails_first.
  right. right. split; [| split].
  - eexists. reflexivity.
  - eexists. reflexivity.
  - eexists. split; reflexivity.
Defined.

(** ** The loop over the containers, lines 68-81 *)

Lemma omap_cons_case {A B} (f : A -> option B) (x : A) (l : list A) :
  omap f (x :: l) =
    match f x with
    | Some y => y :: omap f l
    | None => omap f l
    end.
Proof. reflexivity. Qed.

Lemma for_each_scan_results (cs : list WebElement) (s : State) :
  exists k : nat,
    (k <= length cs)%nat /\
    results (self (snd (for_each cs scan_result s))) =
      results (self s) ++ omap record_of (take k cs) /\
    (fst (for_each cs scan_result s) = Ok tt -> k = length cs).
Proof.
  revert s. induction cs as [| c cs IH]; intros s.
  - exists 0%nat. cbn. rewrite app_nil_r. auto.
  - rewrite !for_each_cons.
    pose proof (scan_result_cases c s) as H.
    destruct (record_of c) as [r |] eqn:Hr.
    + rewrite H. destruct (IH (set_results (results (self s) ++ [r]) s))
        as (k & Hk & Hres & Hall).
      exists (S k). cbn [take length]. rewrite omap_cons_case, Hr.
      split; [lia |]. split.
      * rewrite Hres. cbn. now rewrite <- app_assoc.
      * intros Hok. f_equal. auto.
    + destruct H as [H | [H | (e & H & _)]]; rewrite H.
      * destruct (IH s) as (k & Hk & Hres & Hall).
        exists (S k). cbn [take length]. rewrite omap_cons_case, Hr.
        split; [lia |]. split; [exact Hres |].
        intros Hok. f_equal. auto.
      * destruct (IH (emit (Print missing_warning) s))
          as (k & Hk & Hres & Hall).
        exists (S k). cbn [take length]. rewrite omap_cons_case, Hr.
        split; [lia |]. split; [exact Hres |].
        intros Hok. f_equal. auto.
      * exists 0%nat. cbn. rewrite app_nil_r.
        split; [lia |]. split; [reflexivity | discriminate].
Qed.

(** ** The body of [scrape] *)

Lemma quiet_refl s : quiet s s.
Proof.
  split; [apply same_object_refl |].
  split; [apply same_files_refl | apply grows_without_refl].
Qed.

Lemma quiet_trans s1 s2 s3 : quiet s1 s2 -> quiet s2 s3 -> quiet s1 s3.
Proof.
  intros (O1 & F1 & G1) (O2 & F2 & G2). split; [| split].
  - eapply same_object_trans; eassumption.
  - eapply same_files_trans; eassumption.
  - eapply grows_without_trans; eassumption.
Qed.

Lemma idle_refl s : idle s s.
Proof. split; [apply quiet_refl | apply same_results_refl]. Qed.

Lemma idle_trans s1 s2 s3 : idle s1 s2 -> idle s2 s3 -> idle s1 s3.
Proof.
  intros [Q1 R1] [Q2 R2]. split.
  - eapply quiet_trans; eassumption.
  - eapply same_results_trans; eassumption.
Qed.

Lemma idle_emit (ev : event) (s : State) :
  noisy ev = false -> idle s (emit ev s).
Proof.
  intros Hev. repeat split. exists [ev]. split; [reflexivity |].
  cbn. now rewrite Hev.
Qed.

Lemma preserves_idle_do (ev : event) :
  noisy ev = false -> preserves idle (do_ ev).
Proof. intros Hev s. now apply idle_emit. Qed.

Lemma idle_bind {A B} (m : M A) (k : A -> M B) :
  preserves idle m -> (forall a, preserves idle (k a)) ->
  preserves idle (bind m k).
Proof. apply preserves_bind, idle_trans. Qed.

Lemma idle_answer {A} (o : outcome A) : preserves idle (answer o).
Proof. apply preserves_answer, idle_refl. Qed.

Lemma idle_get_state : preserves idle get_state.
Proof. apply preserves_get_state, idle_refl. Qed.

Create HintDb frame.
#[local] Hint Resolve idle_bind idle_answer idle_get_state : frame.
#[local] Hint Extern 1 (preserves idle (do_ _)) =>
  apply preserves_idle_do; reflexivity : frame.

Lemma preserves_idle_scroll_once : preserves idle scroll_once.
Proof.
  unfold scroll_once, call_find_element, call_send_keys, sleep.
  auto 10 with frame.
Qed.

Lemma preserves_idle_scrolls (l : list nat) :
  preserves idle (for_each l (fun _ => scroll_once)).
Proof.
  apply preserves_for_each;
    [apply idle_refl | apply idle_trans | intros _].
  apply preserves_idle_scroll_once.
Qed.

Lemma preserves_quiet_scan_result (result : WebElement) :
  preserves quiet (scan_result result).
Proof.
  intros s. destruct (scan_result_frame result s) as (O & F & evs & Ht & Hp).
  split; [exact O |]. split; [exact F |].
  exists evs. split; [exact Ht |].
  clear Ht. induction evs as [| ev evs IH]; [reflexivity |].
  cbn in Hp |- *. apply andb_prop in Hp as [Hev Hp].
  rewrite (IH Hp), andb_true_r. destruct ev; cbn in *; congruence.
Qed.

Lemma quiet_idle s1 s2 s3 : idle s1 s2 -> quiet s2 s3 -> quiet s1 s3.
Proof. intros [Q _]. now apply quiet_trans. Qed.

Lemma preserves_quiet_scan_loop (cs : list WebElement) :
  preserves quiet (for_each cs scan_result).
Proof.
  apply preserves_for_each; [apply quiet_refl | apply quiet_trans |].
  apply preserves_quiet_scan_result.
Qed.

(** Stepping through a sequence. *)
Lemma bind_get_state {B} (k : State -> M B) (s : State) :
  bind get_state k s = k s s.
Proof. reflexivity. Qed.

Lemma bind_do {B} (ev : event) (k : unit -> M B) (s : State) :
  bind (do_ ev) k s = k tt (emit ev s).
Proof. reflexivity. Qed.

Lemma bind_answer {A B} (o : outcome A) (k : A -> M B) (s : State) :
  bind (answer o) k s =
    match o with
    | Ok a => k a s
    | Raise e => (Raise e, s)
    end.
Proof. now destruct o. Qed.

Lemma bind_unfold {A B} (m : M A) (k : A -> M B) (s : State) :
  bind m k s =
    match m s with
    | (Ok a, s') => k a s'
    | (Raise e, s') => (Raise e, s')
    end.
Proof. reflexivity. Qed.

Lemma bind_assoc {A B C} (m : M A) (k : A -> M B) (h : B -> M C) (s : State) :
  bind (bind m k) h s = bind m (fun a => bind (k a) h) s.
Proof. unfold bind. now destruct (m s) as [[a | e] s1]. Qed.

Lemma after_get (u : string) (s s' : State) :
  quiet (emit (DriverGet u) s) s' ->
  same_object s s' /\ same_files s s' /\
  exists evs,
    trace s' = trace s ++ DriverGet u :: evs /\
    forallb (fun ev => negb (noisy ev)) evs = true.
Proof.
  intros (O & F & evs & Ht & Hq). split; [exact O |]. split; [exact F |].
  exists evs. split; [| exact Hq].
  rewrite Ht. cbn. now rewrite <- app_assoc.
Qed.

(** What [scrape_body] does: it asks for the search page of the query,
    makes no other noisy call, and leaves [self.results] either as it
    was, when it fails before the loop, or extended by the records of
    a prefix of the containers the driver answered; of all of them,
    when it returns. *)
Lemma scrape_body_spec (s : State) :
  let r := fst (scrape_body s) in
  let s' := snd (scrape_body s) in
  (same_object s s' /\ same_files s s' /\
   exists evs,
     trace s' = trace s ++ DriverGet (search_url (query (self s))) :: evs /\
     forallb (fun ev => negb (noisy ev)) evs = true) /\
  (((exists e, r = Raise e) /\ results (self s') = results (self s)) \/
   exists tr cs k,
     driver_find_elements (driver (self s)) tr CSS_SELECTOR "div.g" = Ok cs /\
     (k <= length cs)%nat /\
     results (self s') = results (self s) ++ omap record_of (take k cs) /\
     (r = Ok tt -> k = length cs)).
Proof.
  cbv zeta. unfold scrape_body, call_get, call_find_elements, sleep, print.
  rewrite bind_get_state, bind_assoc, bind_get_state, bind_assoc, bind_do,
    bind_answer.
  change ("https://www.google.com/search?q=" +:+ query (self s))
    with (search_url (query (self s))).
  set (s1 := emit (DriverGet (search_url (query (self s)))) s).
  destruct (driver_get (driver (self s)) (trace s)
              (search_url (query (self s)))) as [[] | e].
  2:{ cbn [fst snd]. split; [apply after_get, quiet_refl |].
      left. split; [eauto | reflexivity]. }
  rewrite bind_do.
  set (s2 := emit (Sleep 2) s1).
  assert (I2 : idle s1 s2) by (apply idle_emit; reflexivity).
  rewrite bind_unfold.
  pose proof (preserves_idle_scrolls (range (num_scrolls (self s))) s2) as I3.
  destruct (for_each (range (num_scrolls (self s))) (fun _ => scroll_once) s2)
    as [[[] | e] s3]; cbn [snd] in I3.
  2:{ cbn [fst snd]. pose proof (idle_trans _ _ _ I2 I3) as [Q R].
      split; [now apply after_get |].
      left. split; [eauto | exact R]. }
  rewrite bind_assoc, bind_get_state, bind_assoc, bind_do, bind_answer.
  set (s4 := emit (DriverFindElements CSS_SELECTOR "div.g") s3).
  assert (I4 : idle s1 s4).
  { eapply idle_trans; [exact I2 |]. eapply idle_trans; [exact I3 |].
    apply idle_emit. reflexivity. }
  assert (Hd : driver (self s3) = driver (self s)).
  { pose proof (idle_trans _ _ _ I2 I3) as [(O & _) _]. apply O. }
  rewrite Hd.
  destruct (driver_find_elements (driver (self s)) (trace s3) CSS_SELECTOR
              "div.g") as [cs | e] eqn:Hcs.
  2:{ cbn [fst snd]. destruct I4 as [Q R].
      split; [now apply after_get |].
      left. split; [eauto | exact R]. }
  rewrite bind_do.
  set (s5 := emit (Print _) s4).
  assert (I5 : idle s1 s5).
  { eapply idle_trans; [exact I4 |]. apply idle_emit. reflexivity. }
  split.
  - apply after_get. eapply quiet_idle; [exact I5 |].
    apply preserves_quiet_scan_loop.
  - right. exists (trace s3), cs.
    destruct (for_each_scan_results cs s5) as (k & Hk & Hres & Hall).
    exists k. split; [exact Hcs |]. split; [exact Hk |].
    split; [| exact Hall].
    rewrite Hres. destruct I5 as [_ R]. now rewrite R.
Qed.

(** ** [scrape] as a whole *)

(** The outer handler catches whatever the block raises, and the
    cleanup runs in either case. *)
Lemma scrape_unfold (s : State) :
  scrape s =
    (Ok tt,
     emit (Print "[INFO]: Scraping completed.")
       (emit DriverQuit
          match fst (scrape_body (started s)) with
          | Ok _ => snd (scrape_body (started s))
          | Raise e =>
              emit (Print ("[ERROR]: An error occurred during scraping: "
                           +:+ str e))
                (snd (scrape_body (started s)))
          end)).
Proof.
  unfold scrape, print, call_quit. rewrite bind_do. fold (started s).
  unfold try_finally, try_except.
  destruct (scrape_body (started s)) as [[[] | e] sb]; cbn [fst snd].
  - reflexivity.
  - rewrite isinstance_Exception. reflexivity.
Qed.

Lemma scrape_results (s : State) :
  results (self (snd (scrape s))) =
  results (self (snd (scrape_body (started s)))).
Proof.
  rewrite scrape_unfold. cbn [snd].
  now destruct (fst (scrape_body (started s))).
Qed.

(** The events of one call: the greeting, the navigation, then events
    none of which is another navigation, a quit or a file write, then
    the quit and the farewell. *)
Lemma scrape_trace (s : State) :
  exists evs,
    trace (snd (scrape s)) =
      trace s
      ++ [Print "[INFO]: Starting Google scraping...";
          DriverGet (search_url (query (self s)))]
      ++ evs
      ++ [DriverQuit; Print "[INFO]: Scraping completed."] /\
    forallb (fun ev => negb (noisy ev)) evs = true.
Proof.
  rewrite scrape_unfold. cbn [snd].
  destruct (scrape_body_spec (started s)) as [(_ & _ & evs & Ht & Hq) _].
  cbv zeta in Ht.
  change (query (self (started s))) with (query (self s)) in Ht.
  change (trace (started s))
    with (trace s ++ [Print "[INFO]: Starting Google scraping..."]) in Ht.
  destruct (fst (scrape_body (started s))) as [[] | e].
  - exists evs. split; [| exact Hq].
    cbn [emit trace]. rewrite Ht.
    repeat rewrite <- app_assoc. reflexivity.
  - exists (evs ++ [Print ("[ERROR]: An error occurred during scraping: "
                           +:+ str e)]).
    split.
    + cbn [emit trace]. rewrite Ht.
      repeat rewrite <- app_assoc. reflexivity.
    + rewrite forallb_app, Hq. reflexivity.
Qed.

(** C7: every call of [scrape] returns normally, whatever the browser
    answers to the page load, to the look-up of the body or during
    extraction, and its last call to the driver is [quit]: the trace
    ends with the quit and the closing message, and no earlier event of
    the call is a quit. *)
Theorem scrape_always_quits (s : State) :
  exists evs,
    fst (scrape s) = Ok tt /\
    trace (snd (scrape s)) =
      trace s ++ evs ++ [DriverQuit; Print "[INFO]: Scraping completed."] /\
    forallb (fun ev => negb (is_quit ev)) evs = true.
Proof.
  destruct (scrape_trace s) as (evs & Ht & Hq).
  exists ([Print "[INFO]: Starting Google scraping...";
           DriverGet (search_url (query (self s)))] ++ evs).
  split; [now rewrite scrape_unfold |]. split.
  - rewrite Ht. now rewrite <- !app_assoc.
  - cbn. clear Ht. induction evs as [| ev evs IH]; [reflexivity |].
    cbn in Hq |- *. apply andb_prop in Hq as [Hev Hq].
    rewrite (IH Hq), andb_true_r.
    unfold noisy in Hev. destruct (is_quit ev); [| reflexivity].
    now rewrite orb_true_r in Hev.
Qed.

Lemma navigated_quiet (evs : list event) :
  forallb (fun ev => negb (noisy ev)) evs = true ->
  omap (fun ev => match ev with DriverGet u => Some u | _ => None end) evs
  = [].
Proof.
  induction evs as [| ev evs IH]; [reflexivity |].
  cbn [forallb]. intros Hq. apply andb_prop in Hq as [Hev Hq].
  rewrite omap_cons_case, (IH Hq). now destruct ev.
Qed.

(** C10: one call of [scrape] navigates exactly once, to the literal
    concatenation of the search prefix and the query; nothing in the
    query is escaped or encoded. *)
Theorem scrape_navigates_to_literal_url (s : State) :
  navigated (snd (scrape s)) =
  navigated s ++ ["https://www.google.com/search?q=" +:+ query (self s)].
Proof.
  destruct (scrape_trace s) as (evs & Ht & Hq).
  unfold navigated. rewrite Ht, !omap_app, (navigated_quiet evs Hq).
  reflexivity.
Qed.

(** A query with a space, an ampersand and a hash goes out as typed. *)
Example scrape_reserved_characters :
  navigated (snd (scrape (Sample.start "a b&c=d#e" 0 []))) =
  ["https://www.google.com/search?q=a b&c=d#e"].
Proof. reflexivity. Qed.

Lemma same_results_emit (ev : event) (s : State) :
  same_results s (emit ev s).
Proof. reflexivity. Qed.

Lemma same_results_bind {A B} (m : M A) (k : A -> M B) :
  preserves same_results m -> (forall a, preserves same_results (k a)) ->
  preserves same_results (bind m k).
Proof. apply preserves_bind, same_results_trans. Qed.

Lemma same_results_do (ev : event) : preserves same_results (do_ ev).
Proof. intros s. apply same_results_emit. Qed.

Lemma same_results_answer {A} (o : outcome A) :
  preserves same_results (answer o).
Proof. intros s. reflexivity. Qed.

Lemma same_results_get_state : preserves same_results get_state.
Proof. intros s. reflexivity. Qed.

#[local] Hint Resolve same_results_bind same_results_do same_results_answer
  same_results_get_state : frame.

(** Up to the answer of [find_elements] the results are not touched. *)
Lemma find_results_same_results : preserves same_results find_results.
Proof.
  unfold find_results, call_get, call_find_elements, sleep.
  apply same_results_bind; [auto with frame | intros s0].
  apply same_results_bind; [auto 10 with frame | intros _].
  apply same_results_bind; [auto with frame | intros _].
  apply same_results_bind; [| intros _; auto 10 with frame].
  apply preserves_for_each;
    [apply same_results_refl | apply same_results_trans | intros _].
  unfold scroll_once, call_find_element, call_send_keys, sleep.
  auto 10 with frame.
Qed.

Lemma bind_ext {A B} (m : M A) (k h : A -> M B) (s : State) :
  (forall a s', k a s' = h a s') -> bind m k s = bind m h s.
Proof.
  intros H. unfold bind. destruct (m s) as [[a | e] s']; [apply H | reflexivity].
Qed.

(** [scrape_body] is [find_results] followed by the report and the
    loop over what it answered. *)
Lemma scrape_body_split (s : State) :
  scrape_body s =
    bind find_results
      (fun cs =>
         print ("[INFO]: Found " +:+ pretty (length cs)
                +:+ " search results.") ;;;
         for_each cs scan_result) s.
Proof.
  unfold scrape_body, find_results.
  rewrite bind_assoc, !bind_get_state, bind_assoc.
  apply bind_ext. intros _ s1. rewrite bind_assoc.
  apply bind_ext. intros _ s2. rewrite bind_assoc.
  reflexivity.
Qed.

(** The loop adds the records of the containers it gets through. *)
Lemma for_each_scan_scanned (cs : list WebElement) (s : State) :
  results (self (snd (for_each cs scan_result s))) =
  results (self s) ++ omap record_of (scanned cs).
Proof.
  revert s. induction cs as [| c cs IH]; intros s.
  - cbn. now rewrite app_nil_r.
  - rewrite for_each_cons, scan_result_by_first_error.
    cbn [scanned]. unfold aborts.
    destruct (first_error c) as [e |] eqn:Ee.
    + destruct (isinstance e NoSuchElementException) eqn:Hi; cbn [negb].
      * rewrite omap_cons_case.
        assert (Hr : record_of c = None).
        { destruct (record_of c) as [r |] eqn:Er; [| reflexivity].
          apply record_of_first_error in Er. congruence. }
        rewrite Hr. apply (IH (emit (Print missing_warning) s)).
      * cbn. now rewrite app_nil_r.
    + rewrite omap_cons_case. destruct (record_of c) as [r |].
      * rewrite (IH (set_results (results (self s) ++ [r]) s)).
        cbn. now rewrite <- app_assoc.
      * apply IH.
Qed.

(** C6: the records one call of [scrape] adds to [self.results] are
    exactly the records of the qualifying containers among those the
    call scans, in the order in which [find_elements] answered them;
    the call scans the containers of that answer up to the first at
    which an exception other than [NoSuchElementException] leaves the
    loop, all of them when there is none, and none when it fails
    before the answer. *)
Theorem scrape_results_in_page_order (s : State) :
  results (self (snd (scrape s))) =
  results (self s) ++ omap record_of (encountered s).
Proof.
  rewrite scrape_results, scrape_body_split.
  unfold encountered, containers_found. fold (started s).
  pose proof (find_results_same_results (started s)) as Hs.
  unfold bind at 1.
  destruct (find_results (started s)) as [[cs | e] s4]; cbn [fst snd] in *.
  - unfold print. rewrite bind_do, for_each_scan_scanned.
    cbn [emit self]. now rewrite Hs.
  - rewrite Hs. cbn. now rewrite app_nil_r.
Qed.

(** Two qualifying containers around two that do not qualify: two
    records, in page order; after a stale container nothing more. *)
Example scrape_keeps_page_order :
  results (self (snd (scrape
    (Sample.start "rocq" 2
       [Sample.second; Sample.no_snippet; Sample.no_href; Sample.full])))) =
  [Sample.stdlib; Sample.rocq] /\
  results (self (snd (scrape
    (Sample.start "rocq" 2
       [Sample.second; Faulty.stale_container; Sample.full])))) =
  [Sample.stdlib].
Proof. split; reflexivity. Qed.

(** ** The CSV text *)

Lemma append_cons (c : ascii) (s t : string) :
  String c s +:+ t = String c (s +:+ t).
Proof. reflexivity. Qed.

Lemma append_assoc (s t u : string) : (s +:+ t) +:+ u = s +:+ (t +:+ u).
Proof.
  induction s as [| c s IH]; [reflexivity |].
  now rewrite !append_cons, IH.
Qed.

Lemma count_records_quote (q : bool) (s : string) :
  Csv.count_records q (String Csv.dquote s) = Csv.count_records (negb q) s.
Proof. reflexivity. Qed.

(** Between quotes nothing ends a record: an escaped field is passed
    over, and the reader is between quotes still. *)
Lemma count_records_escape (s t : string) :
  Csv.count_records true (Csv.escape s +:+ t) = Csv.count_records true t.
Proof.
  induction s as [| c s IH]; [reflexivity |].
  cbn [Csv.escape]. destruct (Ascii.eqb c Csv.dquote) eqn:Ec.
  - rewrite !append_cons, !count_records_quote. exact IH.
  - rewrite append_cons. cbn [Csv.count_records].
    now rewrite Ec, andb_false_r.
Qed.

(** A field without special characters is passed over too. *)
Lemma count_records_plain (q : bool) (s t : string) :
  Csv.has_special s = false ->
  Csv.count_records q (s +:+ t) = Csv.count_records q t.
Proof.
  induction s as [| c s IH]; [reflexivity |].
  cbn [Csv.has_special]. intros H. apply orb_false_elim in H as [Hc Hs].
  unfold Csv.special in Hc.
  apply orb_false_elim in Hc as [Hc Hlf].
  apply orb_false_elim in Hc as [_ Hq].
  rewrite append_cons. cbn [Csv.count_records]. rewrite Hq, Hlf. cbn.
  now apply IH.
Qed.

Lemma count_records_field (f t : string) :
  Csv.count_records false (Csv.field f +:+ t) = Csv.count_records false t.
Proof.
  unfold Csv.field. destruct (Csv.has_special f) eqn:Hf.
  - rewrite append_cons, count_records_quote, append_assoc,
      count_records_escape, append_cons, count_records_quote.
    reflexivity.
  - now apply count_records_plain.
Qed.

Lemma count_records_join (fs : list string) (t : string) :
  Csv.count_records false (Csv.join_fields fs +:+ t)
  = Csv.count_records false t.
Proof.
  induction fs as [| f fs IH]; [reflexivity |].
  destruct fs as [| g fs].
  - apply count_records_field.
  - change (Csv.join_fields (f :: g :: fs))
      with (Csv.field f +:+ String Csv.comma (Csv.join_fields (g :: fs))).
    rewrite append_assoc, count_records_field, append_cons.
    exact IH.
Qed.

Lemma count_records_row (r : list string) (t : string) :
  Csv.count_records false (Csv.row r +:+ t)
  = S (Csv.count_records false t).
Proof.
  unfold Csv.row. rewrite append_assoc, count_records_join. reflexivity.
Qed.

Lemma count_records_rows (rs : list (list string)) :
  Csv.count_records false (Csv.rows rs) = length rs.
Proof.
  induction rs as [| r rs IH]; [reflexivity |].
  cbn [Csv.rows length]. now rewrite count_records_row, IH.
Qed.

(** The text of a frame has one record for the header and one for each
    row. *)
Lemma data_rows_csv_text (df : DataFrame) :
  data_rows (csv_text df) = length (values df).
Proof.
  unfold data_rows, csv_text.
  now rewrite count_records_row, count_records_rows.
Qed.

Lemma csv_text_header (records : list SearchResult) :
  csv_text (DataFrame_of records) =
  "Title,URL,Description" +:+ String Csv.LF
    (Csv.rows (values (DataFrame_of records))).
Proof. reflexivity. Qed.

(** ** [save_to_csv] *)

Lemma save_to_csv_unfold (file_name : string) (s : State) :
  save_to_csv file_name s =
    (Ok tt,
     match results (self s) with
     | [] => emit (Print "[WARNING]: No results to save.") s
     | _ :: _ =>
         let text := csv_text (DataFrame_of (results (self s))) in
         let s1 := emit (ToCsv file_name text) s in
         match open_error s file_name with
         | Some e =>
             emit (Print ("[ERROR]: Failed to save results to CSV: "
                          +:+ str e)) s1
         | None =>
             match write_error s file_name with
             | Some (k, e) =>
                 emit (Print ("[ERROR]: Failed to save results to CSV: "
                              +:+ str e))
                   (write_file file_name (first_chars k text) s1)
             | None =>
                 emit (Print ("[INFO]: Results saved to " +:+ file_name))
                   (write_file file_name text s1)
             end
         end
     end).
Proof.
  unfold save_to_csv. rewrite bind_get_state.
  destruct (results (self s)) as [| r rs] eqn:Hr; [reflexivity |].
  unfold try_except, to_csv, print, bind, do_, get_state.
  cbn [emit open_error write_error].
  destruct (open_error s file_name) as [e |]; unfold raise.
  - now rewrite isinstance_Exception.
  - destruct (write_error s file_name) as [[k e] |].
    + now rewrite isinstance_Exception.
    + reflexivity.
Qed.

(** C3: with no record collected, [save_to_csv] returns after printing
    its warning: that line is the only event of the call, so no write
    is attempted, and every file is as it was. *)
Theorem save_to_csv_empty_writes_nothing (file_name : string) (s : State) :
  results (self s) = [] ->
  fst (save_to_csv file_name s) = Ok tt /\
  trace (snd (save_to_csv file_name s)) =
    trace s ++ [Print "[WARNING]: No results to save."] /\
  files (snd (save_to_csv file_name s)) = files s.
Proof.
  intros Hr. rewrite save_to_csv_unfold, Hr. repeat split.
Qed.

Lemma save_to_csv_empty_writes_nothing_witness :
  fst (save_to_csv "google_search_results.csv" (Sample.start "rocq" 2 []))
  = Ok tt /\
  trace (snd (save_to_csv "google_search_results.csv"
                (Sample.start "rocq" 2 []))) =
    [] ++ [Print "[WARNING]: No results to save."] /\
  files (snd (save_to_csv "google_search_results.csv"
                (Sample.start "rocq" 2 []))) = ∅.
Proof.
  apply (save_to_csv_empty_writes_nothing "google_search_results.csv"
           (Sample.start "rocq" 2 [])).
  reflexivity.
Defined.

(** C5: with at least one record collected and a file that can be
    opened and written, the file [save_to_csv] leaves begins with the
    header row Title,URL,Description and holds as many data rows as
    there are records in [self.results]. *)
Theorem save_to_csv_header_and_rows (file_name : string) (s : State) :
  results (self s) <> [] ->
  open_error s file_name = None ->
  write_error s file_name = None ->
  exists content rest,
    files (snd (save_to_csv file_name s)) !! file_name = Some content /\
    content = "Title,URL,Description" +:+ String Csv.LF rest /\
    data_rows content = length (results (self s)).
Proof.
  intros Hr Ho Hw. rewrite save_to_csv_unfold, Ho, Hw.
  destruct (results (self s)) as [| r rs] eqn:Er; [congruence |].
  cbv zeta. cbn [snd emit write_file files].
  exists (csv_text (DataFrame_of (r :: rs))),
    (Csv.rows (values (DataFrame_of (r :: rs)))).
  split; [apply lookup_insert_eq |]. split; [apply csv_text_header |].
  rewrite data_rows_csv_text. cbn [DataFrame_of values].
  now rewrite length_map.
Qed.

Lemma save_to_csv_header_and_rows_witness :
  exists content rest,
    files (snd (save_to_csv "google_search_results.csv"
                  (Sample.collected Sample.rocq (fun _ => None))))
      !! "google_search_results.csv" = Some content /\
    content = "Title,URL,Description" +:+ String Csv.LF rest /\
    data_rows content = 1%nat.
Proof.
  apply (save_to_csv_header_and_rows "google_search_results.csv"
           (Sample.collected Sample.rocq (fun _ => None))).
  - discriminate.
  - reflexivity.
  - reflexivity.
Defined.

(** A snippet with a comma, a quote and a line break is still one
    row. *)
Example data_rows_awkward_snippet :
  data_rows (csv_text (DataFrame_of
    [mkSearchResult "a" "b" (String "," (String Csv.dquote
                                (String Csv.LF "c")));
     mkSearchResult "d" "e" ""])) = 2%nat.
Proof. reflexivity. Qed.



(** C9, as worded, fails: after a successful write the scraper still
    holds its record. *)
Lemma save_to_csv_keeps_written_record :
  ~ (is_Some (files (snd (save_to_csv "google_search_results.csv"
                (Sample.collected Sample.rocq (fun _ => None))))
              !! "google_search_results.csv") ->
     results (self (snd (save_to_csv "google_search_results.csv"
                (Sample.collected Sample.rocq (fun _ => None))))) = []).
Proof.
  intros H. assert (Hw : is_Some
    (files (snd (save_to_csv "google_search_results.csv"
                   (Sample.collected Sample.rocq (fun _ => None))))
       !! "google_search_results.csv")).
  { rewrite save_to_csv_unfold. cbn. rewrite lookup_insert_eq. eauto. }
  specialize (H Hw). rewrite save_to_csv_unfold in H. discriminate H.
Qed.

(** C9, amended: [save_to_csv] never touches the scraper object;
    whether the write happens, fails or is skipped, [self.results]
    holds after the call the records it held before. *)
Theorem save_to_csv_keeps_results (file_name : string) (s : State) :
  self (snd (save_to_csv file_name s)) = self s /\
  results (self (snd (save_to_csv file_name s))) = results (self s).
Proof.
  assert (H : self (snd (save_to_csv file_name s)) = self s).
  { rewrite save_to_csv_unfold. cbn [snd].
    destruct (results (self s)); [reflexivity |].
    cbv zeta. destruct (open_error s file_name); [reflexivity |].
    now destruct (write_error s file_name) as [[k e] |]. }
  split; [exact H | now rewrite H].
Qed.

(** ** The typed scroll count, lines 108-112 *)

(** The empty line takes the [or 2] branch and prints nothing; any
    other line [int] refuses is caught by the handler. *)
Lemma read_num_scrolls_unparsed (py : Builtins) (line : string) (s : State) :
  int_rejects py line ->
  read_num_scrolls py line s =
    (Ok 2,
     if truthy (str_strip py line)
     then emit (Print scrolls_warning) s else s).
Proof.
  unfold int_rejects. intros Hi.
  unfold read_num_scrolls, try_except, int. cbv zeta.
  destruct (truthy (str_strip py line)); [| reflexivity].
  unfold answer. now rewrite Hi.
Qed.

(** C4: whatever the interpreter's [str.strip] and [int] are, a line
    that [int] refuses once it is stripped, the empty line included,
    leaves the scroll count at 2; the [try] returns normally, having
    printed at most its warning. *)
Theorem read_num_scrolls_defaults_to_2 (py : Builtins) (line : string)
    (s : State) :
  int_rejects py line ->
  fst (read_num_scrolls py line s) = Ok 2 /\
  (snd (read_num_scrolls py line s) = s \/
   snd (read_num_scrolls py line s) =
     emit (Print "[WARNING]: Invalid input for scrolls, defaulting to 2.") s).
Proof.
  intros Hp. rewrite (read_num_scrolls_unparsed py line s Hp).
  split; [reflexivity |]. cbn [snd].
  destruct (truthy (str_strip py line)); auto.
Qed.

Lemma read_num_scrolls_defaults_to_2_witness :
  fst (read_num_scrolls AsciiLines.py "two" (Sample.start "rocq" 0 []))
  = Ok 2 /\
  fst (read_num_scrolls AsciiLines.py "   " (Sample.start "rocq" 0 []))
  = Ok 2 /\
  fst (read_num_scrolls AsciiLines.py "2.5" (Sample.start "rocq" 0 []))
  = Ok 2.
Proof.
  split; [| split].
  - apply (read_num_scrolls_defaults_to_2 AsciiLines.py "two"
             (Sample.start "rocq" 0 [])).
    reflexivity.
  - apply (read_num_scrolls_defaults_to_2 AsciiLines.py "   "
             (Sample.start "rocq" 0 [])).
    reflexivity.
  - apply (read_num_scrolls_defaults_to_2 AsciiLines.py "2.5"
             (Sample.start "rocq" 0 [])).
    reflexivity.
Defined.

(** A line that does parse is taken as typed. *)
Example read_num_scrolls_accepts :
  fst (read_num_scrolls AsciiLines.py " 5 " (Sample.start "rocq" 0 []))
  = Ok 5 /\
  fst (read_num_scrolls AsciiLines.py "-1" (Sample.start "rocq" 0 []))
  = Ok (-1).
Proof. split; reflexivity. Qed.

(** The sample built-ins at the edges: [int] takes 4300 digits and
    refuses 4301; [str.strip] removes the separator U+001C, which [int]
    itself would not skip. *)
Example ascii_lines_edges :
  fst (read_num_scrolls AsciiLines.py (nines 4301) (Sample.start "rocq" 0 []))
  = Ok 2 /\
  int_of_str AsciiLines.py (nines 4300) <> None /\
  int_of_str AsciiLines.py (String (ascii_of_nat 28) "5") = None /\
  fst (read_num_scrolls AsciiLines.py (String (ascii_of_nat 28) "5")
         (Sample.start "rocq" 0 [])) = Ok 5.
Proof.
  split; [vm_compute; reflexivity |].
  split; [vm_compute; discriminate |].
  split; vm_compute; reflexivity.
Qed.

(** ** The script as a whole *)

Lemma scrape_same_object (s : State) : same_object s (snd (scrape s)).
Proof.
  rewrite scrape_unfold. cbn [snd].
  destruct (scrape_body_spec (started s)) as [(O & _) _]. cbv zeta in O.
  destruct (fst (scrape_body (started s))); exact O.
Qed.

(** * Further properties *)

(** ** The loop body, by its first failing access *)
(** X1: the loop body lets an exception through exactly when the first
    of its six accesses to fail raises something other than
    [NoSuchElementException], and then it is that exception; a
    [NoSuchElementException] is swallowed wherever it comes from, a
    look-up, [.text] or [get_attribute]. *)
Theorem scan_result_raises_iff (result : WebElement) (s : State) (e : exn) :
  fst (scan_result result s) = Raise e <->
  first_error result = Some e /\ class_of e <> NoSuchElementException.
Proof.
  rewrite scan_result_by_first_error.
  destruct (first_error result) as [e' |].
  - destruct (isinstance e' NoSuchElementException) eqn:Ee; cbn [fst].
    + apply isinstance_NoSuchElement in Ee. split; [discriminate |].
      intros [H Hc]. injection H as ->. contradiction.
    + split.
      * intros H. injection H as ->. split; [reflexivity |].
        intros Hc. apply isinstance_NoSuchElement in Hc. congruence.
      * intros [H _]. now injection H as ->.
  - split; [| intros [H _]; discriminate].
    destruct (record_of result); discriminate.
Qed.

(** X2: a container all of whose parts are read, but whose Title is
    empty or whose link has no or an empty [href], is dropped in
    silence: no record, no warning, no exception, the state is as it
    was. *)
Theorem scan_result_drops_silently (result : WebElement) (s : State)
    (t : string) (u : option string) (d : string) :
  title_text result = Ok t ->
  url_attribute result = Ok u ->
  description_text result = Ok d ->
  truthy t && truthy_opt u = false ->
  scan_result result s = (Ok tt, s).
Proof.
  intros Ht Hu Hd Hf. rewrite scan_result_by_first_error.
  assert (Hr : record_of result = None).
  { unfold record_of. rewrite Ht, Hu, Hd. destruct u as [u |]; [| reflexivity].
    cbn [truthy_opt] in Hf. now rewrite Hf. }
  rewrite Hr.
  assert (He : first_error result = None).
  { unfold first_error. unfold title_text, url_attribute, description_text
      in Ht, Hu, Hd.
    destruct (lookup_title result) as [te |]; [| discriminate].
    destruct (lookup_url result) as [ue |]; [| discriminate].
    destruct (lookup_description result) as [de |]; [| discriminate].
    now rewrite Ht, Hu, Hd. }
  now rewrite He.
Qed.

Lemma scan_result_drops_silently_witness :
  scan_result Sample.no_href (Sample.start "rocq" 2 []) =
    (Ok tt, Sample.start "rocq" 2 []).
Proof.
  apply (scan_result_drops_silently Sample.no_href (Sample.start "rocq" 2 [])
           "Rocq" None "A proof assistant"); reflexivity.
Defined.

(** X3: an exception other than [NoSuchElementException] ends the scan
    where it happens.  When the containers before [c] raise nothing but
    [NoSuchElementException] and the first failing access of [c] raises
    [e] of another class, the loop raises [e], the records of the
    containers before [c] are kept, and the containers after [c] are
    never looked at, whatever they hold. *)
Theorem scan_stops_at_first_error (pre : list WebElement) (c : WebElement)
    (post : list WebElement) (s : State) (e : exn) :
  Forall (fun x => forall e', first_error x = Some e' ->
                     class_of e' = NoSuchElementException) pre ->
  first_error c = Some e ->
  class_of e <> NoSuchElementException ->
  fst (for_each (pre ++ c :: post) scan_result s) = Raise e /\
  results (self (snd (for_each (pre ++ c :: post) scan_result s))) =
    results (self s) ++ omap record_of pre.
Proof.
  intros Hpre Hc Hne. revert s.
  induction Hpre as [| x pre Hx Hpre IH]; intros s.
  - cbn [app]. rewrite for_each_cons, scan_result_by_first_error, Hc.
    destruct (isinstance e NoSuchElementException) eqn:Ee.
    + apply isinstance_NoSuchElement in Ee. contradiction.
    + cbn. now rewrite app_nil_r.
  - cbn [app]. rewrite for_each_cons, scan_result_by_first_error,
      omap_cons_case.
    destruct (first_error x) as [e' |] eqn:Ex.
    + assert (Ee : isinstance e' NoSuchElementException = true).
      { apply isinstance_NoSuchElement. now apply Hx. }
      rewrite Ee.
      assert (Hr : record_of x = None).
      { destruct (record_of x) as [r |] eqn:Er; [| reflexivity].
        apply record_of_first_error in Er. congruence. }
      rewrite Hr.
      destruct (IH (emit (Print missing_warning) s)) as [H1 H2].
      split; [exact H1 | exact H2].
    + destruct (record_of x) as [r |].
      * destruct (IH (set_results (results (self s) ++ [r]) s)) as [H1 H2].
        split; [exact H1 |]. rewrite H2. cbn. now rewrite <- app_assoc.
      * apply IH.
Qed.

Lemma scan_stops_at_first_error_witness :
  fst (for_each [Sample.second; Sample.no_snippet; Faulty.stale_container;
                 Sample.full] scan_result (Sample.start "rocq" 2 []))
  = Raise Faulty.stale /\
  results (self (snd (for_each
     [Sample.second; Sample.no_snippet; Faulty.stale_container; Sample.full]
     scan_result (Sample.start "rocq" 2 [])))) = [Sample.stdlib].
Proof.
  apply (scan_stops_at_first_error [Sample.second; Sample.no_snippet]
           Faulty.stale_container [Sample.full] (Sample.start "rocq" 2 [])
           Faulty.stale).
  - repeat constructor; intros e' H; vm_compute in H;
      [discriminate | now injection H as <-].
  - reflexivity.
  - discriminate.
Defined.

(** ** [scrape]: what it leaves alone, what it adds *)

Lemma forallb_weaken {A} (p q : A -> bool) (l : list A) :
  (forall x, p x = true -> q x = true) ->
  forallb p l = true -> forallb q l = true.
Proof.
  intros Hpq. induction l as [| x l IH]; [reflexivity |].
  cbn. intros H. apply andb_prop in H as [Hx Hl].
  now rewrite (Hpq x Hx), (IH Hl).
Qed.

Lemma scrape_same_files (s : State) : same_files s (snd (scrape s)).
Proof.
  rewrite scrape_unfold. cbn [snd].
  destruct (scrape_body_spec (started s)) as [(_ & F & _) _]. cbv zeta in F.
  destruct (fst (scrape_body (started s))); exact F.
Qed.

(** X4: [scrape] writes no file and changes nothing of the scraper but
    its results: the files and what can be opened are as before, the
    query, the scroll count and the driver are as before, and no event
    of the call is a write. *)
Theorem scrape_leaves_files_and_settings (s : State) :
  files (snd (scrape s)) = files s /\
  open_error (snd (scrape s)) = open_error s /\
  query (self (snd (scrape s))) = query (self s) /\
  num_scrolls (self (snd (scrape s))) = num_scrolls (self s) /\
  driver (self (snd (scrape s))) = driver (self s) /\
  exists evs,
    trace (snd (scrape s)) = trace s ++ evs /\
    forallb (fun ev => negb (is_to_csv ev)) evs = true.
Proof.
  destruct (scrape_same_files s) as (Ff & Fo & _).
  destruct (scrape_same_object s) as (Oq & On & Od).
  destruct (scrape_trace s) as (evs & Ht & Hq).
  repeat (split; [assumption |]).
  eexists. split; [exact Ht |].
  rewrite !forallb_app. cbn.
  rewrite (forallb_weaken (fun ev => negb (noisy ev))
             (fun ev => negb (is_to_csv ev)) evs); [reflexivity | | exact Hq].
  intros ev Hev. unfold noisy in Hev. destruct (is_to_csv ev); [| reflexivity].
  now rewrite orb_true_r in Hev.
Qed.

Lemma record_of_valid (result : WebElement) (r : SearchResult) :
  record_of result = Some r -> valid_record r.
Proof.
  unfold record_of.
  destruct (title_text result) as [t |]; [| discriminate].
  destruct (url_attribute result) as [[u |] |]; try discriminate.
  destruct (description_text result) as [d |]; [| discriminate].
  destruct (truthy t) eqn:Tt, (truthy u) eqn:Tu; try discriminate.
  intros H. injection H as <-. split; cbn; now apply truthy_spec.
Qed.

Lemma omap_record_of_valid (cs : list WebElement) :
  Forall valid_record (omap record_of cs).
Proof.
  induction cs as [| c cs IH]; [constructor |].
  rewrite omap_cons_case. destruct (record_of c) as [r |] eqn:Hr; [| exact IH].
  constructor; [now apply (record_of_valid c) | exact IH].
Qed.

(** X5: [scrape] only appends, and only records with a non-empty Title
    and a non-empty URL.  The records held before the call come first
    and unchanged, so if they all had a Title and a URL, all records
    after the call have. *)
Theorem scrape_appends_valid_records (s : State) :
  (exists new,
     results (self (snd (scrape s))) = results (self s) ++ new /\
     Forall valid_record new) /\
  (Forall valid_record (results (self s)) ->
   Forall valid_record (results (self (snd (scrape s))))).
Proof.
  assert (H : exists new,
             results (self (snd (scrape s))) = results (self s) ++ new /\
             Forall valid_record new).
  { rewrite scrape_results.
    destruct (scrape_body_spec (started s))
      as [_ [[_ Hr] | (tr & cs & k & _ & _ & Hr & _)]]; cbv zeta in *.
    - exists []. rewrite Hr. cbn. rewrite app_nil_r.
      split; [reflexivity | constructor].
    - exists (omap record_of (take k cs)).
      split; [exact Hr | apply omap_record_of_valid]. }
  split; [exact H |].
  destruct H as (new & -> & Hnew). intros Hold.
  apply Forall_app. now split.
Qed.

(** ** [scrape], step by step *)

Lemma scrape_body_load (s : State) :
  scrape_body s =
    match driver_get (driver (self s)) (trace s)
            (search_url (query (self s))) with
    | Raise e => (Raise e, emit (DriverGet (search_url (query (self s)))) s)
    | Ok _ =>
        (for_each (range (num_scrolls (self s))) (fun _ => scroll_once) ;;;
         search_results <- call_find_elements CSS_SELECTOR "div.g" ;;
         print ("[INFO]: Found " +:+ pretty (length search_results)
                +:+ " search results.") ;;;
         for_each search_results scan_result)
          (emit (Sleep 2) (emit (DriverGet (search_url (query (self s)))) s))
    end.
Proof.
  unfold scrape_body, call_get, sleep.
  rewrite bind_get_state, bind_assoc, bind_get_state, bind_assoc, bind_do,
    bind_answer.
  change ("https://www.google.com/search?q=" +:+ query (self s))
    with (search_url (query (self s))).
  destruct (driver_get _ _ _) as [[] | e]; [| reflexivity].
  now rewrite bind_do.
Qed.

(** X6: when the page load raises, [scrape] does nothing more with the
    page: the call consists of the greeting, the navigation, the error
    line with the text of the exception, the quit and the farewell, in
    that order and nothing else; no scroll, no look-up, and the results
    are as before. *)
Theorem scrape_load_failure (s : State) (e : exn) :
  driver_get (driver (self s)) (trace (started s))
    (search_url (query (self s))) = Raise e ->
  trace (snd (scrape s)) =
    trace s ++
    [Print "[INFO]: Starting Google scraping...";
     DriverGet (search_url (query (self s)));
     Print ("[ERROR]: An error occurred during scraping: " +:+ str e);
     DriverQuit;
     Print "[INFO]: Scraping completed."] /\
  results (self (snd (scrape s))) = results (self s).
Proof.
  intros He. rewrite scrape_unfold, scrape_body_load.
  change (driver (self (started s))) with (driver (self s)).
  change (query (self (started s))) with (query (self s)).
  rewrite He. cbn. split; [| reflexivity].
  now rewrite <- !app_assoc.
Qed.

Lemma scrape_load_failure_witness :
  trace (snd (scrape (Faulty.offline_start "rocq" 3))) =
    [] ++
    [Print "[INFO]: Starting Google scraping...";
     DriverGet (search_url "rocq");
     Print ("[ERROR]: An error occurred during scraping: "
            +:+ "Message: timeout");
     DriverQuit;
     Print "[INFO]: Scraping completed."] /\
  results (self (snd (scrape (Faulty.offline_start "rocq" 3)))) = [].
Proof.
  apply (scrape_load_failure (Faulty.offline_start "rocq" 3) Faulty.timeout).
  reflexivity.
Defined.

Lemma emits_emits (a b : list event) (s : State) :
  emits b (emits a s) = emits (a ++ b) s.
Proof. unfold emits. cbn. now rewrite <- app_assoc. Qed.

Lemma scroll_once_ok (s : State) :
  scrolls (driver (self s)) ->
  scroll_once s =
    (Ok tt,
     emits [DriverFindElement TAG_NAME "body"; SendKeys Keys_END; Sleep 2] s).
Proof.
  intros Hs. destruct (Hs (trace s)) as (body & Hb & Hk).
  unfold scroll_once, call_find_element, call_send_keys, sleep.
  rewrite bind_assoc, bind_get_state, bind_assoc, bind_do, bind_answer, Hb.
  rewrite bind_assoc, bind_do, bind_answer, Hk.
  unfold do_, emit, emits. cbn. now rewrite <- !app_assoc.
Qed.

Lemma scroll_loop_ok (l : list nat) (s : State) :
  scrolls (driver (self s)) ->
  for_each l (fun _ => scroll_once) s =
    (Ok tt, emits (scroll_events (length l)) s).
Proof.
  revert s. induction l as [| x l IH]; intros s Hs.
  - unfold emits. cbn. rewrite app_nil_r. now destruct s.
  - rewrite for_each_cons, (scroll_once_ok s Hs), IH by exact Hs.
    now rewrite emits_emits.
Qed.

Lemma scan_loop_prints (cs : list WebElement) (s : State) :
  grows_without (fun ev => negb (is_print ev)) s
    (snd (for_each cs scan_result s)).
Proof.
  apply preserves_for_each.
  - apply grows_without_refl.
  - apply grows_without_trans.
  - intros c s1. apply (scan_result_frame c s1).
Qed.

Lemma forallb_negb_negb {A} (p : A -> bool) (l : list A) :
  forallb (fun x => negb (negb (p x))) l = forallb p l.
Proof.
  induction l as [| x l IH]; [reflexivity |].
  cbn. now rewrite negb_involutive, IH.
Qed.

(** X7: when every page load returns and the body is always found and
    takes the key, one call of [scrape] makes, in this order: the
    greeting, the navigation, a sleep of 2, then for each of
    [max(0, num_scrolls)] turns a look-up of the body, the END key and
    a sleep of 2, then one look-up of the [div.g] containers, then
    nothing but printed lines, then the quit and the farewell. *)
Theorem scrape_trace_when_page_loads (s : State) :
  loads (driver (self s)) ->
  scrolls (driver (self s)) ->
  exists lines,
    trace (snd (scrape s)) =
      trace s
      ++ [Print "[INFO]: Starting Google scraping...";
          DriverGet (search_url (query (self s)));
          Sleep 2]
      ++ scroll_events (Z.to_nat (num_scrolls (self s)))
      ++ [DriverFindElements CSS_SELECTOR "div.g"]
      ++ lines
      ++ [DriverQuit; Print "[INFO]: Scraping completed."] /\
    forallb is_print lines = true.
Proof.
  intros Hl Hs. rewrite scrape_unfold, scrape_body_load.
  change (driver (self (started s))) with (driver (self s)).
  change (query (self (started s))) with (query (self s)).
  change (num_scrolls (self (started s))) with (num_scrolls (self s)).
  rewrite Hl, bind_unfold, scroll_loop_ok by exact Hs.
  unfold range. rewrite length_seq.
  set (n := Z.to_nat (num_scrolls (self s))).
  set (s3 := emits (scroll_events n) _).
  unfold call_find_elements, print.
  rewrite bind_assoc, bind_get_state, bind_assoc, bind_do, bind_answer.
  assert (T3 : trace s3 =
                 trace s ++
                 [Print "[INFO]: Starting Google scraping...";
                  DriverGet (search_url (query (self s))); Sleep 2]
                 ++ scroll_events n).
  { unfold s3, emits, started, emit. cbn. now rewrite <- !app_assoc. }
  destruct (driver_find_elements (driver (self s3)) (trace s3) CSS_SELECTOR
              "div.g") as [cs | e].
  - rewrite bind_do.
    set (s5 := emit (Print _) (emit _ s3)).
    destruct (scan_loop_prints cs s5) as (evs & Ht & Hp).
    rewrite forallb_negb_negb in Hp.
    set (found := "[INFO]: Found " +:+ pretty (length cs)
                  +:+ " search results.") in *.
    assert (T5 : trace s5 =
              trace s3 ++ [DriverFindElements CSS_SELECTOR "div.g"]
              ++ [Print found]).
    { unfold s5, emit. cbn. now rewrite <- app_assoc. }
    destruct (fst (for_each cs scan_result s5)) as [[] | e].
    + exists ([Print found] ++ evs).
      split; [| now rewrite forallb_app, Hp].
      cbn [snd emit trace]. rewrite Ht, T5, T3.
      repeat rewrite <- app_assoc. reflexivity.
    + exists ([Print found] ++ evs ++
              [Print ("[ERROR]: An error occurred during scraping: "
                      +:+ str e)]).
      split; [| now rewrite !forallb_app, Hp].
      cbn [snd emit trace]. rewrite Ht, T5, T3.
      repeat rewrite <- app_assoc. reflexivity.
  - exists [Print ("[ERROR]: An error occurred during scraping: "
                   +:+ str e)].
    split; [| reflexivity].
    cbn [fst snd emit trace]. rewrite T3.
    repeat rewrite <- app_assoc. reflexivity.
Qed.

Lemma scrape_trace_when_page_loads_witness :
  exists lines,
    trace (snd (scrape (Sample.start "rocq" 2 [Sample.full]))) =
      []
      ++ [Print "[INFO]: Starting Google scraping...";
          DriverGet (search_url "rocq");
          Sleep 2]
      ++ scroll_events 2
      ++ [DriverFindElements CSS_SELECTOR "div.g"]
      ++ lines
      ++ [DriverQuit; Print "[INFO]: Scraping completed."] /\
    forallb is_print lines = true.
Proof.
  apply (scrape_trace_when_page_loads (Sample.start "rocq" 2 [Sample.full])).
  - intros tr url. reflexivity.
  - intros tr. exists Sample.body. split; reflexivity.
Defined.

(** ** [save_to_csv] and the files *)

Lemma save_to_csv_touches_one_file_aux (file_name : string) (s : State) :
  (forall other, other <> file_name ->
     files (snd (save_to_csv file_name s)) !! other = files s !! other) /\
  open_error (snd (save_to_csv file_name s)) = open_error s /\
  write_error (snd (save_to_csv file_name s)) = write_error s.
Proof.
  rewrite save_to_csv_unfold. cbn [snd].
  destruct (results (self s)) as [| r rs]; [now auto |].
  cbv zeta. destruct (open_error s file_name) as [e |]; [now auto |].
  destruct (write_error s file_name) as [[k e] |];
    cbn [emit write_file files open_error write_error];
    (split; [| now split]);
    intros other Ho; now apply lookup_insert_ne.
Qed.

(** X8: [save_to_csv] changes at most the file it is given.  Every
    other path keeps what it held.  The file named keeps what it held
    when there is nothing to save or it cannot be opened; once opened
    it has lost what it held, and holds the CSV text of the records, or
    the first characters of that text when the write fails on the
    way. *)
Theorem save_to_csv_touches_one_file (file_name : string) (s : State) :
  let text := csv_text (DataFrame_of (results (self s))) in
  (forall other, other <> file_name ->
     files (snd (save_to_csv file_name s)) !! other = files s !! other) /\
  (results (self s) = [] \/ open_error s file_name <> None ->
   files (snd (save_to_csv file_name s)) = files s) /\
  (results (self s) <> [] -> open_error s file_name = None ->
   files (snd (save_to_csv file_name s)) !! file_name =
     Some match write_error s file_name with
          | Some (k, _) => first_chars k text
          | None => text
          end).
Proof.
  cbv zeta. split; [apply save_to_csv_touches_one_file_aux |].
  rewrite save_to_csv_unfold. cbn [snd].
  destruct (results (self s)) as [| r rs]; [split; [reflexivity | congruence] |].
  cbv zeta. destruct (open_error s file_name) as [e |].
  - split; [reflexivity | discriminate].
  - split; [intros [H | H]; congruence |]. intros _ _.
    destruct (write_error s file_name) as [[k e] |];
      cbn [emit write_file files]; apply lookup_insert_eq.
Qed.

Example save_to_csv_overwrites :
  files (snd (save_to_csv "out.csv"
     (mkState (mkGoogleScraper "rocq" 2 [Sample.stdlib] (Sample.browser []))
        [] (<["out.csv" := "old"]> (<["notes.txt" := "mine"]> ∅))
        (fun _ => None) (fun _ => None))))
  = <["out.csv" := "Title,URL,Description" +:+ String Csv.LF
        ("Stdlib,https://rocq-prover.org/stdlib," +:+ String Csv.LF "")]>
      (<["notes.txt" := "mine"]> ∅).
Proof.
  rewrite save_to_csv_unfold. cbn.
  now rewrite insert_insert_eq.
Qed.

(** X9: a write that fails once the file is open is caught like any
    other: [save_to_csv] returns normally, prints the error line and
    keeps the scraper as it was.  But the file does not keep what it
    held: it holds the part of the CSV text written before the
    failure, which may be nothing, or a header without rows. *)
Theorem save_to_csv_partial_write (file_name : string) (s : State)
    (k : nat) (e : exn) :
  results (self s) <> [] ->
  open_error s file_name = None ->
  write_error s file_name = Some (k, e) ->
  fst (save_to_csv file_name s) = Ok tt /\
  self (snd (save_to_csv file_name s)) = self s /\
  stdout (snd (save_to_csv file_name s)) =
    stdout s ++ ["[ERROR]: Failed to save results to CSV: " +:+ str e] /\
  files (snd (save_to_csv file_name s)) =
    <[file_name :=
        first_chars k (csv_text (DataFrame_of (results (self s))))]>
      (files s).
Proof.
  intros Hr Ho Hw. rewrite save_to_csv_unfold, Ho, Hw.
  destruct (results (self s)) as [| r rs] eqn:Er; [congruence |].
  cbv zeta. cbn [fst snd emit write_file self files].
  repeat split.
  unfold stdout, emit, write_file. cbn [trace]. rewrite !omap_app. cbn.
  now rewrite app_nil_r.
Qed.

Lemma save_to_csv_partial_write_witness :
  fst (save_to_csv "out.csv" (Faulty.collected_on_full_disk 10)) = Ok tt /\
  files (snd (save_to_csv "out.csv" (Faulty.collected_on_full_disk 10)))
    !! "out.csv" = Some "Title,URL,".
Proof.
  destruct (save_to_csv_partial_write "out.csv"
              (Faulty.collected_on_full_disk 10) 10 Faulty.disk_full)
    as (H1 & _ & _ & H4).
  - discriminate.
  - reflexivity.
  - reflexivity.
  - split; [exact H1 |]. rewrite H4. apply lookup_insert_eq.
Defined.

(** ** The typed scroll count, both ways *)

Lemma read_num_scrolls_of_int (py : Builtins) (line : string) (z : Z)
    (s : State) :
  str_strip py line <> "" ->
  int_of_str py (str_strip py line) = Some z ->
  read_num_scrolls py line s = (Ok z, s).
Proof.
  intros Hn Hi. unfold read_num_scrolls, try_except, int. cbv zeta.
  apply truthy_spec in Hn. rewrite Hn. unfold answer. now rewrite Hi.
Qed.

(** X10: a line that is not blank and that [int] accepts once it is
    stripped gives the number [int] returns and prints nothing: the
    state is as it was.  Zero and negative counts are taken as typed,
    and then the scroll loop has no turn. *)
Theorem read_num_scrolls_parsed (py : Builtins) (line : string) (z : Z)
    (s : State) :
  str_strip py line <> "" ->
  int_of_str py (str_strip py line) = Some z ->
  read_num_scrolls py line s = (Ok z, s) /\
  (z <= 0 -> range z = []).
Proof.
  intros Hn Hi. split; [now apply read_num_scrolls_of_int |].
  intros Hz. unfold range.
  replace (Z.to_nat z) with 0%nat by lia. reflexivity.
Qed.

Lemma read_num_scrolls_parsed_witness :
  read_num_scrolls AsciiLines.py "  1_0 " (Sample.start "rocq" 0 []) =
    (Ok 10, Sample.start "rocq" 0 []) /\
  read_num_scrolls AsciiLines.py "-3" (Sample.start "rocq" 0 []) =
    (Ok (-3), Sample.start "rocq" 0 []).
Proof.
  split.
  - apply (read_num_scrolls_parsed AsciiLines.py "  1_0 " 10
             (Sample.start "rocq" 0 []));
      [discriminate | reflexivity].
  - apply (read_num_scrolls_parsed AsciiLines.py "-3" (-3)
             (Sample.start "rocq" 0 []));
      [discriminate | reflexivity].
Defined.

(** X11: the two ways to the default.  A line that is blank once
    stripped gives 2 through [or 2] and prints nothing; any other line
    [int] refuses gives 2 through the handler, which prints the
    warning. *)
Theorem read_num_scrolls_warns_unless_blank (py : Builtins) (line : string)
    (s : State) :
  (str_strip py line = "" -> read_num_scrolls py line s = (Ok 2, s)) /\
  (str_strip py line <> "" -> int_rejects py line ->
   read_num_scrolls py line s = (Ok 2, emit (Print scrolls_warning) s)).
Proof.
  split.
  - intros Hb. unfold read_num_scrolls, try_except. cbv zeta.
    now rewrite Hb.
  - intros Hn Hp. rewrite (read_num_scrolls_unparsed py line s Hp).
    apply truthy_spec in Hn. now rewrite Hn.
Qed.

Lemma read_num_scrolls_warns_unless_blank_witness :
  read_num_scrolls AsciiLines.py "   " (Sample.start "rocq" 0 []) =
    (Ok 2, Sample.start "rocq" 0 []) /\
  read_num_scrolls AsciiLines.py "many" (Sample.start "rocq" 0 []) =
    (Ok 2, emit (Print scrolls_warning) (Sample.start "rocq" 0 [])).
Proof.
  split.
  - apply (read_num_scrolls_warns_unless_blank AsciiLines.py "   "
             (Sample.start "rocq" 0 [])).
    reflexivity.
  - apply (read_num_scrolls_warns_unless_blank AsciiLines.py "many"
             (Sample.start "rocq" 0 [])).
    + discriminate.
    + reflexivity.
Defined.

(** The [try] always returns a number, and touches only the
    terminal. *)
Lemma read_num_scrolls_returns (py : Builtins) (line : string) (s : State) :
  exists n,
    read_num_scrolls py line s = (Ok n, s) \/
    read_num_scrolls py line s = (Ok n, emit (Print scrolls_warning) s).
Proof.
  destruct (String.eqb_spec (str_strip py line) "") as [Hb | Hn].
  - exists 2. left.
    unfold read_num_scrolls, try_except. cbv zeta. now rewrite Hb.
  - destruct (int_of_str py (str_strip py line)) as [z |] eqn:Hi.
    + exists z. left. now apply read_num_scrolls_of_int.
    + exists 2. right. rewrite (read_num_scrolls_unparsed py line s Hi).
      apply truthy_spec in Hn. now rewrite Hn.
Qed.

(** ** The script, from the prompts to the file *)

(** The script in one equation: the scroll count is read, the browser
    is started, and when it starts the page is scraped and saved. *)
Lemma main_unfold (py : Builtins)
    (chrome : list string -> outcome WebDriver)
    (line1 line2 : string) (s : State) :
  exists n s1,
    (s1 = prompted s \/ s1 = emit (Print scrolls_warning) (prompted s)) /\
    read_num_scrolls py line2 (prompted s) = (Ok n, s1) /\
    main py chrome line1 line2 s =
      match chrome (chrome_arguments true) with
      | Ok d =>
          save_to_csv output_file
            (snd (scrape (constructed (str_strip py line1) n d s1)))
      | Raise e =>
          (Raise e,
           if isinstance e WebDriverException
           then emit (Print (init_error e)) s1
           else s1)
      end.
Proof.
  destruct (read_num_scrolls_returns py line2 (prompted s)) as [n Hr].
  assert (H : exists s1,
             (s1 = prompted s \/
              s1 = emit (Print scrolls_warning) (prompted s)) /\
             read_num_scrolls py line2 (prompted s) = (Ok n, s1)).
  { destruct Hr as [Hr | Hr]; eauto. }
  clear Hr. destruct H as (s1 & Hs1 & Hr). exists n, s1.
  split; [exact Hs1 |]. split; [exact Hr |].
  unfold main. cbv zeta. rewrite !bind_do. fold (prompted s).
  rewrite bind_unfold, Hr, bind_unfold.
  unfold GoogleScraper_init, _init_driver, try_except, answer.
  rewrite bind_unfold.
  destruct (chrome (chrome_arguments true)) as [d | e].
  - fold (constructed (str_strip py line1) n d s1).
    rewrite bind_unfold, scrape_unfold. reflexivity.
  - unfold init_error, print.
    destruct (isinstance e WebDriverException); reflexivity.
Qed.

(** After the prompts and the reading of the count, only the terminal
    has been used. *)
Lemma after_prompts (s s1 : State) :
  s1 = prompted s \/ s1 = emit (Print scrolls_warning) (prompted s) ->
  self s1 = self s /\ files s1 = files s /\ open_error s1 = open_error s /\
  write_error s1 = write_error s /\
  exists evs,
    trace s1 = trace s ++ evs /\ forallb is_terminal evs = true /\
    forallb (fun ev => negb (noisy ev)) evs = true.
Proof.
  intros [-> | ->]; repeat (split; [reflexivity |]).
  - exists [Input "Enter search query: ";
            Input "Enter number of scrolls (default 2): "].
    cbn. now rewrite <- app_assoc.
  - exists [Input "Enter search query: ";
            Input "Enter number of scrolls (default 2): ";
            Print scrolls_warning].
    cbn. now rewrite <- !app_assoc.
Qed.

(** X12: when Chrome does not start, the script ends there with the
    exception Chrome raised, in the state the reading of the scroll
    count left (the two prompts and at most the warning about the
    count), but for one line: the initialization error, printed when
    the exception is a [WebDriverException] and only then.  So any
    other exception passes unreported, and in either case no driver
    was called, no file written and no scraper object bound. *)
Theorem main_chrome_failure (py : Builtins)
    (chrome : list string -> outcome WebDriver)
    (line1 line2 : string) (s : State) (e : exn) :
  chrome (chrome_arguments true) = Raise e ->
  main py chrome line1 line2 s =
    (Raise e,
     if isinstance e WebDriverException
     then emit (Print (init_error e)) (counted py line2 s)
     else counted py line2 s) /\
  (counted py line2 s = prompted s \/
   counted py line2 s = emit (Print scrolls_warning) (prompted s)) /\
  self (snd (main py chrome line1 line2 s)) = self s /\
  files (snd (main py chrome line1 line2 s)) = files s.
Proof.
  intros Hc.
  destruct (main_unfold py chrome line1 line2 s) as (n & s1 & Hs1 & Hr & Hm).
  unfold counted. rewrite Hr, Hm, Hc. cbn [fst snd].
  destruct (after_prompts s s1 Hs1) as (Hself & Hf & _).
  split; [reflexivity |]. split; [exact Hs1 |].
  now destruct (isinstance e WebDriverException).
Qed.

Lemma main_chrome_failure_witness :
  main AsciiLines.py (chrome_fails Faulty.no_chrome) " rocq " "3"
    (Sample.start "" 0 []) =
    (Raise Faulty.no_chrome,
     emit (Print (init_error Faulty.no_chrome))
       (prompted (Sample.start "" 0 []))) /\
  main AsciiLines.py (chrome_fails Sample.permission_denied) " rocq " "3"
    (Sample.start "" 0 []) =
    (Raise Sample.permission_denied, prompted (Sample.start "" 0 [])).
Proof.
  split.
  - apply (main_chrome_failure AsciiLines.py
             (chrome_fails Faulty.no_chrome) " rocq " "3"
             (Sample.start "" 0 []) Faulty.no_chrome).
    reflexivity.
  - apply (main_chrome_failure AsciiLines.py
             (chrome_fails Sample.permission_denied) " rocq " "3"
             (Sample.start "" 0 []) Sample.permission_denied).
    reflexivity.
Defined.

Lemma save_to_csv_trace (file_name : string) (s : State) :
  exists evs,
    trace (snd (save_to_csv file_name s)) = trace s ++ evs /\
    forallb (fun ev => is_print ev || is_to_csv ev) evs = true.
Proof.
  rewrite save_to_csv_unfold. cbn [snd].
  destruct (results (self s)) as [| r rs].
  - eexists. split; reflexivity.
  - cbv zeta. destruct (open_error s file_name) as [e |];
      [| destruct (write_error s file_name) as [[k e] |]];
      (eexists; split; [cbn; now rewrite <- app_assoc | reflexivity]).
Qed.

(** X13: once Chrome has started, the script returns normally whatever
    the two lines, the browser and the file system do, and it quits
    the browser session exactly once. *)
Theorem main_returns_once_started (py : Builtins)
    (chrome : list string -> outcome WebDriver) (d : WebDriver)
    (line1 line2 : string) (s : State) :
  chrome (chrome_arguments true) = Ok d ->
  fst (main py chrome line1 line2 s) = Ok tt /\
  exists before after,
    trace (snd (main py chrome line1 line2 s)) =
      trace s ++ before ++ [DriverQuit] ++ after /\
    forallb (fun ev => negb (is_quit ev)) before = true /\
    forallb (fun ev => negb (is_quit ev)) after = true.
Proof.
  intros Hc.
  destruct (main_unfold py chrome line1 line2 s) as (n & s1 & Hs1 & _ & Hm).
  rewrite Hm, Hc. split; [now rewrite save_to_csv_unfold |].
  destruct (after_prompts s s1 Hs1) as (_ & _ & _ & _ & evs0 & Ht0 & _ & Hq0).
  set (s2 := constructed (str_strip py line1) n d s1).
  destruct (scrape_trace s2) as (evs & Ht & Hq).
  destruct (save_to_csv_trace output_file (snd (scrape s2)))
    as (evs' & Ht' & Hp').
  change (trace s2) with (trace s1) in Ht.
  exists (evs0 ++ [Print "[INFO]: Starting Google scraping...";
                   DriverGet (search_url (query (self s2)))] ++ evs),
    ([Print "[INFO]: Scraping completed."] ++ evs').
  split; [| split].
  - rewrite Ht', Ht, Ht0. repeat rewrite <- app_assoc. reflexivity.
  - rewrite !forallb_app. cbn.
    rewrite (forallb_weaken (fun ev => negb (noisy ev))
               (fun ev => negb (is_quit ev)) evs0),
      (forallb_weaken (fun ev => negb (noisy ev))
         (fun ev => negb (is_quit ev)) evs); try assumption; try reflexivity;
      intros ev Hev; unfold noisy in Hev; destruct (is_quit ev);
      try reflexivity; now rewrite orb_true_r in Hev.
  - rewrite forallb_app. cbn.
    apply (forallb_weaken (fun ev => is_print ev || is_to_csv ev)); [| exact Hp'].
    intros ev Hev. now destruct ev.
Qed.

Lemma main_returns_once_started_witness :
  fst (main AsciiLines.py (chrome_starts Faulty.offline) "rocq" "x"
         (Sample.start "" 0 [])) = Ok tt.
Proof.
  apply (main_returns_once_started AsciiLines.py
           (chrome_starts Faulty.offline)
           Faulty.offline "rocq" "x" (Sample.start "" 0 [])).
  reflexivity.
Defined.

(** X14: the script changes at most one file, [google_search_results.csv]:
    every other path holds after the run what it held before, whether
    Chrome starts or not. *)
Theorem main_touches_one_file (py : Builtins)
    (chrome : list string -> outcome WebDriver)
    (line1 line2 other : string) (s : State) :
  other <> output_file ->
  files (snd (main py chrome line1 line2 s)) !! other = files s !! other.
Proof.
  intros Ho.
  destruct (main_unfold py chrome line1 line2 s) as (n & s1 & Hs1 & _ & Hm).
  destruct (after_prompts s s1 Hs1) as (_ & Hf & _).
  rewrite Hm. destruct (chrome (chrome_arguments true)) as [d | e].
  - set (s2 := constructed (str_strip py line1) n d s1).
    destruct (save_to_csv_touches_one_file_aux output_file (snd (scrape s2)))
      as [Hother _].
    rewrite (Hother other Ho).
    destruct (scrape_same_files s2) as [-> _]. cbn [s2 constructed files].
    now rewrite Hf.
  - cbn [snd]. destruct (isinstance e WebDriverException);
      cbn [emit files]; now rewrite Hf.
Qed.

Lemma main_touches_one_file_witness :
  files (snd (main AsciiLines.py
                (chrome_starts (Sample.browser [Sample.full]))
                "rocq" "1"
                (mkState (mkGoogleScraper "" 0 [] (Sample.browser []))
                   [] (<["notes.txt" := "mine"]> ∅) (fun _ => None)
                   (fun _ => None))))
    !! "notes.txt" = Some "mine".
Proof.
  rewrite (main_touches_one_file AsciiLines.py
             (chrome_starts (Sample.browser [Sample.full])) "rocq" "1"
             "notes.txt").
  - reflexivity.
  - discriminate.
Defined.

(** The records of a call, by the containers it scans. *)
Lemma scrape_results_encountered (s : State) :
  results (self (snd (scrape s))) =
  results (self s) ++ omap record_of (encountered s).
Proof.
  rewrite scrape_results, scrape_body_split.
  unfold encountered, containers_found. fold (started s).
  pose proof (find_results_same_results (started s)) as Hs.
  unfold bind at 1.
  destruct (find_results (started s)) as [[cs | e] s4]; cbn [fst snd] in *.
  - unfold print. rewrite bind_do, for_each_scan_scanned.
    cbn [emit self]. now rewrite Hs.
  - rewrite Hs. cbn. now rewrite app_nil_r.
Qed.

(** X15: from the page to the file.  Once Chrome has started, the
    records the script ends with are exactly the records of the
    qualifying containers its one call of [scrape] scans, in page
    order.  When there is none, the files are as they were; when there
    is one and the output file can be opened and written, that file
    holds the CSV text of exactly these records, and nothing else has
    changed. *)
Theorem main_end_to_end (py : Builtins)
    (chrome : list string -> outcome WebDriver)
    (d : WebDriver) (line1 line2 : string) (s : State) :
  chrome (chrome_arguments true) = Ok d ->
  let records :=
    omap record_of (encountered (launched py d line1 line2 s)) in
  results (self (snd (main py chrome line1 line2 s))) = records /\
  (records = [] -> files (snd (main py chrome line1 line2 s)) = files s) /\
  (records <> [] ->
   open_error s output_file = None -> write_error s output_file = None ->
   files (snd (main py chrome line1 line2 s)) =
     <[output_file := csv_text (DataFrame_of records)]> (files s)).
Proof.
  intros Hc.
  destruct (main_unfold py chrome line1 line2 s) as (n & s1 & Hs1 & Hr & Hm).
  destruct (after_prompts s s1 Hs1) as (_ & Hf & Ho & Hw & _).
  unfold launched, counted, typed_scrolls. rewrite Hr, Hm, Hc.
  cbn [fst snd]. clear Hm.
  set (s2 := constructed (str_strip py line1) n d s1).
  pose proof (scrape_results_encountered s2) as Hres.
  change (results (self s2)) with (@nil SearchResult) in Hres.
  cbn [app] in Hres.
  destruct (scrape_same_files s2) as (Ff & Fo & Fw).
  change (files s2) with (files s1) in Ff.
  change (open_error s2) with (open_error s1) in Fo.
  change (write_error s2) with (write_error s1) in Fw.
  cbv zeta. rewrite save_to_csv_unfold. cbn [snd]. rewrite Hres.
  destruct (omap record_of (encountered s2)) as [| r rs] eqn:Hrec.
  - cbn [emit self files]. split; [exact Hres |].
    split; [intros _; congruence | congruence].
  - cbv zeta. rewrite Fo, Ho, Fw, Hw.
    split; [| split; [discriminate |]].
    + destruct (open_error s output_file); [exact Hres |].
      now destruct (write_error s output_file) as [[k e] |].
    + intros _ Hopen Hwrite. rewrite Hopen, Hwrite.
      cbn [emit write_file files]. now rewrite Ff, Hf.
Qed.

Lemma main_end_to_end_witness :
  results (self (snd (main AsciiLines.py
    (chrome_starts (Sample.browser [Sample.second; Sample.no_href]))
    "rocq" "" (Sample.start "" 0 [])))) = [Sample.stdlib] /\
  files (snd (main AsciiLines.py
    (chrome_starts (Sample.browser [Sample.second; Sample.no_href]))
    "rocq" "" (Sample.start "" 0 []))) =
    <[output_file := csv_text (DataFrame_of [Sample.stdlib])]> ∅.
Proof.
  destruct (main_end_to_end AsciiLines.py
              (chrome_starts (Sample.browser [Sample.second; Sample.no_href]))
              (Sample.browser [Sample.second; Sample.no_href])
              "rocq" "" (Sample.start "" 0 []))
    as (Hr & _ & Hf).
  - reflexivity.
  - split; [exact Hr |]. apply Hf; [discriminate | reflexivity | reflexivity].
Defined.

(** The whole run on a page of two containers, one of which has no
    [href]: one record, one data row. *)
Example main_writes_the_page :
  files (snd (main AsciiLines.py
    (chrome_starts (Sample.browser [Sample.second; Sample.no_href]))
    "rocq" "" (Sample.start "" 0 []))) !! output_file
  = Some ("Title,URL,Description" +:+ String Csv.LF
            ("Stdlib,https://rocq-prover.org/stdlib," +:+ String Csv.LF "")).
Proof. vm_compute. reflexivity. Qed.

(** X16: once Chrome has started, the script navigates exactly once, to
    the search prefix followed by what [str.strip] leaves of the first
    line typed; what is inside the query, white space and reserved
    characters included, goes out as typed. *)
Theorem main_navigates_to_stripped_query (py : Builtins)
    (chrome : list string -> outcome WebDriver) (d : WebDriver)
    (line1 line2 : string) (s : State) :
  chrome (chrome_arguments true) = Ok d ->
  navigated (snd (main py chrome line1 line2 s)) =
  navigated s ++
  ["https://www.google.com/search?q=" +:+ str_strip py line1].
Proof.
  intros Hc.
  destruct (main_unfold py chrome line1 line2 s) as (n & s1 & Hs1 & _ & Hm).
  destruct (after_prompts s s1 Hs1) as (_ & _ & _ & _ & evs0 & Ht0 & _ & Hq0).
  rewrite Hm, Hc. clear Hm.
  set (s2 := constructed (str_strip py line1) n d s1).
  destruct (scrape_trace s2) as (evs & Ht & Hq).
  destruct (save_to_csv_trace output_file (snd (scrape s2)))
    as (evs' & Ht' & Hp').
  change (trace s2) with (trace s1) in Ht.
  unfold navigated. rewrite Ht', Ht, Ht0, !omap_app.
  rewrite (navigated_quiet evs0 Hq0), (navigated_quiet evs Hq).
  assert (He : omap (fun ev => match ev with
                               | DriverGet u => Some u
                               | _ => None
                               end) evs' = []).
  { clear Ht'. induction evs' as [| ev evs' IH]; [reflexivity |].
    cbn in Hp'. apply andb_prop in Hp' as [Hev Hp'].
    rewrite omap_cons_case, (IH Hp'). now destruct ev. }
  rewrite He. cbn. now rewrite !app_nil_r.
Qed.

Lemma main_navigates_to_stripped_query_witness :
  navigated (snd (main AsciiLines.py (chrome_starts (Sample.browser []))
                    "  rocq & coq  " "0" (Sample.start "" 0 []))) =
  [] ++ ["https://www.google.com/search?q=" +:+ "rocq & coq"].
Proof.
  apply (main_navigates_to_stripped_query AsciiLines.py
           (chrome_starts (Sample.browser []))
           (Sample.browser []) "  rocq & coq  " "0" (Sample.start "" 0 [])).
  reflexivity.
Defined.

(** ** The CSV text loses nothing *)

Lemma quoted_escape (f : string) (d : ascii) (rest : string) :
  Ascii.eqb d Csv.dquote = false ->
  CsvRead.quoted (Csv.escape f +:+ String Csv.dquote (String d rest))
  = Some (f, String d rest).
Proof.
  intros Hd. induction f as [| c f IH].
  - cbn [Csv.escape]. change ("" +:+ ?x) with x.
    cbn [CsvRead.quoted]. change (Ascii.eqb Csv.dquote Csv.dquote) with true.
    cbn iota. now rewrite Hd.
  - cbn [Csv.escape]. destruct (Ascii.eqb c Csv.dquote) eqn:Ec.
    + apply Ascii.eqb_eq in Ec. subst c.
      rewrite !append_cons. cbn [CsvRead.quoted].
      change (Ascii.eqb Csv.dquote Csv.dquote) with true. cbn iota.
      now rewrite IH.
    + rewrite append_cons. cbn [CsvRead.quoted]. now rewrite Ec, IH.
Qed.

Lemma plain_unquoted (f : string) (d : ascii) (rest : string) :
  Csv.has_special f = false ->
  Ascii.eqb d Csv.comma || Ascii.eqb d Csv.LF = true ->
  CsvRead.plain (f +:+ String d rest) = (f, String d rest).
Proof.
  intros Hf Hd. induction f as [| c f IH].
  - change ("" +:+ ?x) with x. cbn [CsvRead.plain]. now rewrite Hd.
  - cbn [Csv.has_special] in Hf. apply orb_false_elim in Hf as [Hc Hf].
    unfold Csv.special in Hc.
    apply orb_false_elim in Hc as [Hc Hlf].
    apply orb_false_elim in Hc as [Hcomma _].
    rewrite append_cons. cbn [CsvRead.plain].
    now rewrite Hcomma, Hlf, (IH Hf).
Qed.

(** A field written and followed by a comma or a line break is read
    back as it was. *)
Lemma field_read (f : string) (d : ascii) (rest : string) :
  Ascii.eqb d Csv.comma || Ascii.eqb d Csv.LF = true ->
  CsvRead.field (Csv.field f +:+ String d rest) = Some (f, String d rest).
Proof.
  intros Hd.
  assert (Hq : Ascii.eqb d Csv.dquote = false).
  { apply orb_prop in Hd as [H | H]; apply Ascii.eqb_eq in H; now subst d. }
  unfold Csv.field. destruct (Csv.has_special f) eqn:Hf.
  - rewrite append_cons, append_assoc, append_cons.
    change ("" +:+ String d rest) with (String d rest).
    unfold CsvRead.field.
    change (Ascii.eqb Csv.dquote Csv.dquote) with true. cbn iota.
    now apply quoted_escape.
  - destruct f as [| c f].
    + change ("" +:+ ?x) with x. unfold CsvRead.field. rewrite Hq.
      pose proof (plain_unquoted "" d rest eq_refl Hd) as Hp.
      change ("" +:+ String d rest) with (String d rest) in Hp.
      now rewrite Hp.
    + rewrite append_cons. unfold CsvRead.field.
      assert (Hc : Ascii.eqb c Csv.dquote = false).
      { cbn [Csv.has_special] in Hf. apply orb_false_elim in Hf as [Hc _].
        unfold Csv.special in Hc.
        apply orb_false_elim in Hc as [Hc _].
        now apply orb_false_elim in Hc as [_ Hc]. }
      rewrite Hc, <- append_cons. now rewrite plain_unquoted.
Qed.

Lemma row3_read (a b c rest : string) :
  CsvRead.row3 (Csv.row [a; b; c] +:+ rest) = Some ([a; b; c], rest).
Proof.
  unfold Csv.row. cbn [Csv.join_fields].
  rewrite !append_assoc, !append_cons, !append_assoc, !append_cons.
  change ("" +:+ rest) with rest.
  unfold CsvRead.row3.
  rewrite field_read by reflexivity. cbn [CsvRead.expect].
  change (Ascii.eqb Csv.comma Csv.comma) with true. cbn iota.
  rewrite field_read by reflexivity. cbn [CsvRead.expect].
  change (Ascii.eqb Csv.comma Csv.comma) with true. cbn iota.
  rewrite field_read by reflexivity. cbn [CsvRead.expect].
  change (Ascii.eqb Csv.LF Csv.LF) with true. reflexivity.
Qed.

Lemma rows_injective (rs1 rs2 : list SearchResult) :
  Csv.rows (values (DataFrame_of rs1)) = Csv.rows (values (DataFrame_of rs2))
  -> rs1 = rs2.
Proof.
  revert rs2. induction rs1 as [| r1 rs1 IH]; intros [| r2 rs2] H.
  - reflexivity.
  - apply (f_equal CsvRead.row3) in H. cbn [DataFrame_of values map Csv.rows] in H.
    rewrite row3_read in H. discriminate.
  - apply (f_equal CsvRead.row3) in H. cbn [DataFrame_of values map Csv.rows] in H.
    rewrite row3_read in H. discriminate.
  - apply (f_equal CsvRead.row3) in H. cbn [DataFrame_of values map Csv.rows] in H.
    rewrite !row3_read in H. injection H as Ht Hu Hd Hrest.
    destruct r1, r2. cbn in Ht, Hu, Hd. subst.
    f_equal. now apply IH.
Qed.

(** X17: the CSV text determines the records.  Two lists of records
    with the same text are the same list: quoting keeps commas, quotes
    and line breaks inside a field apart from those that separate
    fields and rows, so a file written by [save_to_csv] can be read
    back to exactly the records that were collected. *)
Theorem csv_text_injective (rs1 rs2 : list SearchResult) :
  csv_text (DataFrame_of rs1) = csv_text (DataFrame_of rs2) -> rs1 = rs2.
Proof.
  unfold csv_text. cbn [DataFrame_of columns].
  intros H. apply String.app_inj in H. now apply rows_injective.
Qed.

Lemma csv_text_injective_witness :
  [Sample.stdlib; Sample.rocq] = [Sample.stdlib; Sample.rocq].
Proof.
  apply (csv_text_injective [Sample.stdlib; Sample.rocq]
           [Sample.stdlib; Sample.rocq]).
  reflexivity.
Defined.

(** Each row of the text is read back as the three values of its
    record, in the order Title, URL, Description. *)
Example row3_awkward :
  CsvRead.row3
    (Csv.row ["a,b"; String Csv.dquote "q"; String Csv.LF ""] +:+ "next")
  = Some (["a,b"; String Csv.dquote "q"; String Csv.LF ""], "next").
Proof. reflexivity. Qed.

(** ** A run without errors *)

Lemma warnings_cons (c : WebElement) (cs : list WebElement) :
  warnings (c :: cs) =
    (if fails c then [Print missing_warning] else []) ++ warnings cs.
Proof.
  unfold warnings. rewrite filter_cons.
  destruct (fails c); cbn; [| reflexivity].
  destruct (decide (true = true)); [reflexivity | congruence].
Qed.

(** The loop on containers that raise nothing but missing elements:
    it returns, with the records of all qualifying containers and one
    warning for each container skipped. *)
Lemma scan_loop_healthy (cs : list WebElement) (s : State) :
  Forall only_missing cs ->
  fst (for_each cs scan_result s) = Ok tt /\
  results (self (snd (for_each cs scan_result s))) =
    results (self s) ++ omap record_of cs /\
  trace (snd (for_each cs scan_result s)) = trace s ++ warnings cs.
Proof.
  intros H. revert s. induction H as [| c cs Hc Hcs IH]; intros s.
  - cbn. now rewrite !app_nil_r.
  - rewrite for_each_cons, scan_result_by_first_error, omap_cons_case,
      warnings_cons.
    unfold fails. destruct (first_error c) as [e |] eqn:Ee.
    + assert (Hi : isinstance e NoSuchElementException = true).
      { apply isinstance_NoSuchElement. now apply Hc. }
      rewrite Hi.
      assert (Hr : record_of c = None).
      { destruct (record_of c) as [r |] eqn:Er; [| reflexivity].
        apply record_of_first_error in Er. congruence. }
      rewrite Hr.
      destruct (IH (emit (Print missing_warning) s)) as (H1 & H2 & H3).
      split; [exact H1 |]. split; [exact H2 |].
      rewrite H3. cbn. now rewrite <- app_assoc.
    + destruct (record_of c) as [r |].
      * destruct (IH (set_results (results (self s) ++ [r]) s))
          as (H1 & H2 & H3).
        split; [exact H1 |]. split.
        -- rewrite H2. cbn. now rewrite <- app_assoc.
        -- exact H3.
      * apply IH.
Qed.

(** X18: a run without errors, in full.  When every page load returns,
    the body is always found and takes the key, the driver answers
    [cs] for [div.g], and nothing fails on a container but a missing
    element, one call of [scrape] adds the records of all qualifying
    containers of [cs] in page order, and its events are exactly: the
    greeting, the navigation, a sleep, the scroll turns, the look-up,
    the line with the number of containers found (not of records
    kept), one warning per container skipped for a missing element,
    the quit and the farewell.  No error line is printed. *)
Theorem scrape_healthy_run (s : State) (cs : list WebElement) :
  loads (driver (self s)) ->
  scrolls (driver (self s)) ->
  (forall tr,
     driver_find_elements (driver (self s)) tr CSS_SELECTOR "div.g" = Ok cs) ->
  Forall only_missing cs ->
  results (self (snd (scrape s))) = results (self s) ++ omap record_of cs /\
  trace (snd (scrape s)) =
    trace s
    ++ [Print "[INFO]: Starting Google scraping...";
        DriverGet (search_url (query (self s)));
        Sleep 2]
    ++ scroll_events (Z.to_nat (num_scrolls (self s)))
    ++ [DriverFindElements CSS_SELECTOR "div.g"; Print (found_line cs)]
    ++ warnings cs
    ++ [DriverQuit; Print "[INFO]: Scraping completed."].
Proof.
  intros Hl Hs Hf Hcs. rewrite scrape_unfold, scrape_body_load.
  change (driver (self (started s))) with (driver (self s)).
  change (query (self (started s))) with (query (self s)).
  change (num_scrolls (self (started s))) with (num_scrolls (self s)).
  rewrite Hl, bind_unfold, scroll_loop_ok by exact Hs.
  unfold range. rewrite length_seq.
  set (n := Z.to_nat (num_scrolls (self s))).
  set (s3 := emits (scroll_events n) _).
  unfold call_find_elements, print.
  rewrite bind_assoc, bind_get_state, bind_assoc, bind_do, bind_answer.
  change (driver (self s3)) with (driver (self s)). rewrite Hf, bind_do.
  fold (found_line cs).
  set (s5 := emit (Print (found_line cs)) (emit _ s3)).
  destruct (scan_loop_healthy cs s5 Hcs) as (H1 & H2 & H3).
  rewrite H1. cbn [snd emit self trace]. split; [exact H2 |].
  rewrite H3. unfold s5, s3, emits, started, emit. cbn [trace].
  repeat rewrite <- app_assoc. reflexivity.
Qed.

Lemma scrape_healthy_run_witness :
  results (self (snd (scrape
     (Sample.start "rocq" 1 [Sample.second; Sample.no_snippet; Sample.full]))))
  = [] ++ omap record_of [Sample.second; Sample.no_snippet; Sample.full].
Proof.
  apply (scrape_healthy_run
           (Sample.start "rocq" 1
              [Sample.second; Sample.no_snippet; Sample.full])
           [Sample.second; Sample.no_snippet; Sample.full]).
  - intros tr url. reflexivity.
  - intros tr. exists Sample.body. split; reflexivity.
  - intros tr. reflexivity.
  - repeat constructor; intros e H; vm_compute in H;
      [discriminate | now injection H as <- | discriminate].
Defined.

(** Three containers, the second without a snippet: "Found 3", one
    warning, two records. *)
Example scrape_healthy_stdout :
  stdout (snd (scrape
     (Sample.start "rocq" 1 [Sample.second; Sample.no_snippet; Sample.full])))
  = ["[INFO]: Starting Google scraping...";
     "[INFO]: Found 3 search results.";
     "[WARNING]: Missing element in a result, skipping...";
     "[INFO]: Scraping completed."].
Proof. reflexivity. Qed.
